(** * NutriKid: BMI classification and dashboard aggregation

    A shallow embedding of the analytics helpers of
    [app/routes/school.py] and [app/routes/super_admin.py], and the
    properties of the BMI classifier, the distribution aggregators, the
    derived rates, the monthly trends and the beneficiary flag.

    Modelling conventions.
    - A Python [float] read from the [bmi] column is a rational number
      ([Q]); the thresholds 16, 18.5, 25 and 30 are exact, and every finite
      float is a rational, so every comparison of the source is exact.
      Sums, quotients and [round(_, 1)] are the exact rational ones, where
      the machine rounds to the nearest float.  Of a computed mean or rate
      the theorems therefore state only what holds under either arithmetic:
      the guards, the values 0 and 100 at the end points, the bounds, the
      order, and the equality of two values computed from the same data.
    - A nullable column is an [option].
    - A Python [dict] with string keys is a [gmap string Z]; a Python [int]
      counter is a [Z].
    - Python exceptions are the [Raise] results of the monad [result];
      [try: ... except Exception: ...] is [try_except]. *)

From Stdlib Require Import QArith Qround ZArith Permutation Sorted Lqa.
From stdpp Require Import base option gmap strings list fin_maps.

Open Scope Z_scope.

(** ** Python values and exceptions *)

Inductive PyExc : Type :=
  | TypeError
  | KeyError
  | ZeroDivisionError
  | SQLAlchemyError.

Inductive result (A : Type) : Type :=
  | Ok (a : A)
  | Raise (e : PyExc).

Arguments Ok {A} a.
Arguments Raise {A} e.

#[global] Instance result_ret : MRet result := fun _ a => Ok a.
#[global] Instance result_bind : MBind result := fun _ _ f m =>
  match m with
  | Ok a => f a
  | Raise e => Raise e
  end.

(** [try: body  except Exception as e: handler e] *)
Definition try_except {A} (body : result A) (handler : PyExc -> result A) : result A :=
  match body with
  | Ok a => Ok a
  | Raise e => handler e
  end.

(** A list comprehension [[x for x in l if p x]] whose condition may raise. *)
Fixpoint filterM {A} (p : A -> result bool) (l : list A) : result (list A) :=
  match l with
  | [] => Ok []
  | x :: l' =>
      b ← p x;
      r ← filterM p l';
      Ok (if b : bool then x :: r else r)
  end.

(** A [for x in l: ...] loop updating the value [acc]. *)
Fixpoint foldM {A B} (f : B -> A -> result B) (acc : B) (l : list A) : result B :=
  match l with
  | [] => Ok acc
  | x :: l' => acc' ← f acc x; foldM f acc' l'
  end.

Definition Qltb (x y : Q) : bool := negb (Qle_bool y x).

(** [x < c], [x >= c], [x > c], [c <= x] on a nullable float column:
    comparing [None] with a number raises [TypeError]. *)
Definition py_lt (x : option Q) (c : Q) : result bool :=
  match x with
  | Some v => Ok (Qltb v c)
  | None => Raise TypeError
  end.

Definition py_ge (x : option Q) (c : Q) : result bool :=
  match x with
  | Some v => Ok (Qle_bool c v)
  | None => Raise TypeError
  end.

Definition py_gt (x : option Q) (c : Q) : result bool :=
  match x with
  | Some v => Ok (Qltb c v)
  | None => Raise TypeError
  end.

(** Truth value of a nullable float: [None] and [0.0] are false. *)
Definition truthy (x : option Q) : bool :=
  match x with
  | Some v => negb (Qeq_bool v 0)
  | None => false
  end.

(** Truth value of a nullable boolean. *)
Definition truthy_flag (x : option bool) : bool :=
  match x with
  | Some b => b
  | None => false
  end.

(** [a / b] on numbers: division by zero raises. *)
Definition py_div (a b : Q) : result Q :=
  if Qeq_bool b 0 then Raise ZeroDivisionError else Ok (a / b)%Q.

(** [round(x, 1)]: to the nearest tenth, a tie going to the even one. *)
Definition py_round1 (x : Q) : Q :=
  let n := (x * 10)%Q in
  let f := Qfloor n in
  let r := (n - inject_Z f)%Q in
  let up :=
    match (r ?= 1 # 2)%Q with
    | Lt => false
    | Gt => true
    | Eq => Z.odd f
    end in
  (inject_Z (if up then f + 1 else f) / 10)%Q.

(** [d[k] += 1]: reading a missing key raises [KeyError]. *)
Definition dict_incr (k : string) (d : gmap string Z) : result (gmap string Z) :=
  match d !! k with
  | Some v => Ok (<[k := v + 1]> d)
  | None => Raise KeyError
  end.

(** [sum(d.values())] over the keys [ks] of [d]; an absent key adds nothing. *)
Definition dict_sum (ks : list string) (d : gmap string Z) : Z :=
  foldr (fun k acc => default 0 (d !! k) + acc) 0 ks.

(** ** The data model *)

Record datetime : Type := {
  year : Z;
  month : Z
}.

(** The columns of [Student] that the analytics read. *)
Record Student : Type := {
  id : Z;
  bmi : option Q;
  is_beneficiary : option bool;
  school_id : option Z;
  section_id : option Z;
  created_at : option datetime;
  updated_at : option datetime
}.

Inductive BmiCategory : Type :=
  | SeverelyWasted
  | Wasted
  | Normal
  | Overweight
  | Obese.

Definition category_key (c : BmiCategory) : string :=
  match c with
  | SeverelyWasted => "severely_wasted"
  | Wasted => "wasted"
  | Normal => "normal"
  | Overweight => "overweight"
  | Obese => "obese"
  end.

Definition five_keys : list string :=
  ["severely_wasted"; "wasted"; "normal"; "overweight"; "obese"].

(** ** The BMI classifier

    The [if bmi < 16 ... elif bmi < 18.5 ... elif bmi < 25 ... elif bmi < 30
    ... else] chain that school.py (lines 978-987, 801-812) and
    super_admin.py (lines 90-101) repeat inline, on a number. *)
Definition classify (bmi : Q) : BmiCategory :=
  if Qltb bmi 16 then SeverelyWasted
  else if Qltb bmi (37 # 2) then Wasted
  else if Qltb bmi 25 then Normal
  else if Qltb bmi 30 then Overweight
  else Obese.

(** ** Conditions that both modules use *)

(** [a and b], [a or b]: the right operand is evaluated only when the left
    one does not decide. *)
Definition py_and (a b : result bool) : result bool :=
  x ← a; if x : bool then b else Ok false.

Definition py_or (a b : result bool) : result bool :=
  x ← a; if x : bool then Ok true else b.

(** [lo <= x < hi] *)
Definition py_between (lo : Q) (x : option Q) (hi : Q) : result bool :=
  py_and (py_ge x lo) (py_lt x hi).

(** [x < 18.5 or x >= 25] *)
Definition outside_normal (x : option Q) : result bool :=
  py_or (py_lt x (37 # 2)) (py_ge x 25).

(** The SQL condition [bmi IS NOT NULL]. *)
Definition bmi_not_null (s : Student) : bool :=
  match bmi s with
  | Some _ => true
  | None => false
  end.

(** The SQL condition [bmi IS NOT NULL AND (bmi < 18.5 OR bmi >= 25)]. *)
Definition sql_at_risk (s : Student) : bool :=
  match bmi s with
  | Some v => Qltb v (37 # 2) || Qle_bool 25 v
  | None => false
  end.

(** [len(l)] and [query.count()] *)
Definition len {A} (l : list A) : Z := Z.of_nat (length l).

(** * app/routes/school.py *)

Module school.

(** ** [_calculate_accurate_bmi_distribution] (lines 966-992) *)

(** The recurring condition [s.bmi is not None and s.bmi > 0]. *)
Definition has_valid_bmi (s : Student) : result bool :=
  match bmi s with
  | None => Ok false                      (* s.bmi is not None *)
  | Some _ => py_gt (bmi s) 0             (* and s.bmi > 0 *)
  end.

Definition accurate_zero : gmap string Z :=
  <["normal" := 0]> (<["wasted" := 0]> (<["severely_wasted" := 0]>
    (<["overweight" := 0]> (<["obese" := 0]> ∅)))).

Definition accurate_step (distribution : gmap string Z) (student : Student)
  : result (gmap string Z) :=
  let bmi := bmi student in
  c1 ← py_lt bmi 16;
  if c1 : bool then dict_incr "severely_wasted" distribution else
  c2 ← py_lt bmi (37 # 2);
  if c2 : bool then dict_incr "wasted" distribution else
  c3 ← py_lt bmi 25;
  if c3 : bool then dict_incr "normal" distribution else
  c4 ← py_lt bmi 30;
  if c4 : bool then dict_incr "overweight" distribution else
  dict_incr "obese" distribution.

Definition _calculate_accurate_bmi_distribution (students : list Student)
  : result (gmap string Z) :=
  try_except
    (let distribution := accurate_zero in
     match students with
     | [] => Ok distribution
     | _ =>
         students_with_bmi ← filterM has_valid_bmi students;
         foldM accurate_step distribution students_with_bmi
     end)
    (fun _ => Ok accurate_zero).

(** ** [_calculate_student_bmi_distribution] (lines 1498-1523) *)

Definition student_zero : gmap string Z :=
  <["normal" := 0]> (<["wasted" := 0]> (<["severely_wasted" := 0]>
    (<["overweight" := 0]> ∅))).

Definition student_step (distribution : gmap string Z) (student : Student)
  : result (gmap string Z) :=
  let bmi := bmi student in
  c1 ← py_lt bmi 16;
  if c1 : bool then dict_incr "severely_wasted" distribution else
  c2 ← py_lt bmi (37 # 2);
  if c2 : bool then dict_incr "wasted" distribution else
  c3 ← py_lt bmi 25;
  if c3 : bool then dict_incr "normal" distribution else
  dict_incr "overweight" distribution.

Definition _calculate_student_bmi_distribution (students : list Student)
  : result (gmap string Z) :=
  try_except
    (let distribution := student_zero in
     match students with
     | [] => Ok distribution
     | _ =>
         students_with_bmi ← filterM has_valid_bmi students;
         foldM student_step distribution students_with_bmi
     end)
    (fun _ => Ok student_zero).

(** ** [_get_super_admin_dashboard_data]: the system-wide distribution
    (lines 795-812) and the at-risk count (lines 827-830)

    [table] is the content of the [student] table; the query
    [Student.query.filter(Student.bmi != None).all()] keeps the rows whose
    [bmi] is not NULL. *)

Definition system_zero : gmap string Z :=
  <["underweight" := 0]> (<["normal" := 0]> (<["overweight" := 0]>
    (<["obese" := 0]> (<["severely_wasted" := 0]> (<["wasted" := 0]> ∅))))).

Definition _get_super_admin_dashboard_data__bmi_distribution
    (table : list Student) : result (gmap string Z) :=
  let bmi_distribution := system_zero in
  let students_with_bmi := List.filter bmi_not_null table in
  foldM accurate_step bmi_distribution students_with_bmi.

(** ** [_get_at_risk_students] (lines 994-1013) *)

(** [l.sort(key=...)] is a stable sort; [l.sort(key=..., reverse=True)]
    is the stable sort for the reversed order.  Both are insertions that
    keep equal keys in their original order. *)
Fixpoint insert_by {A} (le : Q -> Q -> bool) (key : A -> Q) (x : A) (l : list A)
  : list A :=
  match l with
  | [] => [x]
  | y :: l' =>
      if le (key x) (key y) then x :: y :: l' else y :: insert_by le key x l'
  end.

Definition py_sort {A} (reverse : bool) (key : A -> Q) (l : list A) : list A :=
  let le := if reverse then (fun a b => Qle_bool b a) else Qle_bool in
  foldr (insert_by le key) [] l.

(** [lambda s: s.bmi if s.bmi else 0] *)
Definition bmi_or_zero (s : Student) : Q :=
  match bmi s with
  | Some v => if truthy (Some v) then v else 0
  | None => 0
  end.

Definition at_risk_step (at_risk : list Student) (student : Student)
  : result (list Student) :=
  valid ← has_valid_bmi student;
  if valid : bool then
    severe ← py_or (py_lt (bmi student) 16) (py_ge (bmi student) 30);
    if severe : bool then Ok (at_risk ++ [student]) else Ok at_risk
  else Ok at_risk.

Definition _get_at_risk_students (school_students : list Student)
  : result (list Student) :=
  try_except
    (match school_students with
     | [] => Ok []
     | _ =>
         at_risk ← foldM at_risk_step [] school_students;
         Ok (py_sort false bmi_or_zero at_risk)
     end)
    (fun _ => Ok []).

(** ** [_calculate_improved_bmi_progress] (lines 1046-1078) *)

(** [{'labels': [...], 'values': [...]}] *)
Record chart : Type := {
  labels : list string;
  values : list Q
}.

(** [calendar.month_abbr]; a [datetime] month is between 1 and 12. *)
Definition calendar_month_abbr (m : Z) : string :=
  match m with
  | 1 => "Jan" | 2 => "Feb" | 3 => "Mar" | 4 => "Apr"
  | 5 => "May" | 6 => "Jun" | 7 => "Jul" | 8 => "Aug"
  | 9 => "Sep" | 10 => "Oct" | 11 => "Nov" | 12 => "Dec"
  | _ => ""
  end.

(** [sum(s.bmi for s in l)]: adding [None] to a number raises. *)
Definition py_sum_bmi (l : list Student) : result Q :=
  foldM (fun acc s =>
           match bmi s with
           | Some v => Ok (acc + v)%Q
           | None => Raise TypeError
           end) 0%Q l.

(** [s.created_at and s.created_at.month == d.month and
     s.created_at.year == d.year] *)
Definition created_in (d : datetime) (s : Student) : bool :=
  match created_at s with
  | Some c => (month c =? month d) && (year c =? year d)
  | None => false
  end.

Definition valid_and_created_in (d : datetime) (s : Student) : result bool :=
  py_and (has_valid_bmi s) (Ok (created_in d s)).

Definition average_bmi (l : list Student) : result Q :=
  total ← py_sum_bmi l;
  py_div total (inject_Z (len l)).

Section Clock.

(** [month_date i] is [datetime.now() - timedelta(days=30*i)]. *)
Variable month_date : Z -> datetime.

Definition improved_step (students : list Student)
    (acc : list string * list Q) (i : Z) : result (list string * list Q) :=
  let '(months, bmi_values) := acc in
  let month_name := calendar_month_abbr (month (month_date i)) in
  let months := month_name :: months in                 (* months.insert(0, _) *)
  month_students ← filterM (valid_and_created_in (month_date i)) students;
  match month_students with
  | _ :: _ =>
      avg_bmi ← average_bmi month_students;
      Ok (months, py_round1 avg_bmi :: bmi_values)
  | [] =>
      all_students_with_bmi ← filterM has_valid_bmi students;
      match all_students_with_bmi with
      | _ :: _ =>
          avg_bmi ← average_bmi all_students_with_bmi;
          Ok (months, py_round1 avg_bmi :: bmi_values)
      | [] => Ok (months, (37 # 2)%Q :: bmi_values)     (* Default healthy BMI *)
      end
  end.

Definition improved_default : chart :=
  {| labels := ["Jan"; "Feb"; "Mar"; "Apr"; "May"; "Jun"];
     values := [37 # 2; 37 # 2; 37 # 2; 37 # 2; 37 # 2; 37 # 2]%Q |}.

Definition _calculate_improved_bmi_progress (students : list Student)
  : result chart :=
  try_except
    ('(months, bmi_values) ← foldM (improved_step students) ([], [])
                                   [0; 1; 2; 3; 4; 5];
     Ok {| labels := months; values := bmi_values |})
    (fun _ => Ok improved_default).

End Clock.

(** ** [_calculate_monthly_progress_trends] (lines 592-646)

    [table] is the content of the [student] table. *)

(** [calendar.month_name] *)
Definition calendar_month_name (m : Z) : string :=
  match m with
  | 1 => "January" | 2 => "February" | 3 => "March" | 4 => "April"
  | 5 => "May" | 6 => "June" | 7 => "July" | 8 => "August"
  | 9 => "September" | 10 => "October" | 11 => "November" | 12 => "December"
  | _ => ""
  end.

(** [MONTH(created_at) = m OR MONTH(updated_at) = m]; a NULL date matches
    no month. *)
Definition month_matches (m : Z) (s : Student) : bool :=
  match created_at s with Some c => month c =? m | None => false end
  || match updated_at s with Some u => month u =? m | None => false end.

(** [18.5 <= s.bmi < 25] *)
Definition is_healthy (s : Student) : result bool :=
  py_between (37 # 2) (bmi s) 25.

(** [healthy / len(l) * 100] with [healthy] the number of healthy records *)
Definition healthy_percent (l : list Student) : result Q :=
  healthy ← filterM is_healthy l;
  q ← py_div (inject_Z (len healthy)) (inject_Z (len l));
  Ok (q * 100)%Q.

Definition system_average (table : list Student) : result Q :=
  let all_students := List.filter bmi_not_null table in
  match all_students with
  | _ :: _ => healthy_percent all_students
  | [] => Ok 0%Q
  end.

Definition monthly_step (table : list Student)
    (acc : list string * list Q) (month_num : Z) : result (list string * list Q) :=
  let '(months_labels, months_data) := acc in
  let month_name := calendar_month_name month_num in
  let months_labels := months_labels ++ [String.substring 0 3 month_name] in
  let month_students := List.filter (month_matches month_num) table in
  nutritional ←
    match month_students with
    | [] => system_average table
    | _ :: _ =>
        let with_bmi := List.filter (fun s => truthy (bmi s)) month_students in
        match with_bmi with
        | _ :: _ => healthy_percent with_bmi
        | [] => system_average table
        end
    end;
  Ok (months_labels, months_data ++ [py_round1 nutritional]).

Definition monthly_default : chart :=
  {| labels := ["Jan"; "Feb"; "Mar"; "Apr"; "May"; "Jun";
                "Jul"; "Aug"; "Sep"; "Oct"; "Nov"; "Dec"];
     values := [0; 0; 0; 0; 0; 0; 0; 0; 0; 0; 0; 0]%Q |}.

Definition _calculate_monthly_progress_trends (table : list Student)
  : result chart :=
  try_except
    ('(months_labels, months_data) ← foldM (monthly_step table) ([], [])
                                      [1; 2; 3; 4; 5; 6; 7; 8; 9; 10; 11; 12];
     Ok {| labels := months_labels; values := months_data |})
    (fun _ => Ok monthly_default).

(** ** [_calculate_school_performance] (lines 485-546) *)

Record School : Type := {
  school_pk : Z;        (* school.id *)
  school_name : string  (* school.name *)
}.

(** One element of [school_performance]; the fields are the dictionary keys
    ['name'], ['students_count'], ['beneficiaries'], ['at_risk'],
    ['performance_score'], ['data_completeness'], ['improvement_rate']. *)
Record school_entry : Type := {
  se_name : string;
  se_students_count : Z;
  se_beneficiaries : Z;
  se_at_risk : Z;
  se_performance_score : Q;
  se_data_completeness : Q;
  se_improvement_rate : Q
}.

(** [s.bmi and (s.bmi < 18.5 or s.bmi >= 25)] *)
Definition needs_feeding (s : Student) : result bool :=
  py_and (Ok (truthy (bmi s))) (outside_normal (bmi s)).

(** [s.bmi and 18.5 <= s.bmi < 25 and s.is_beneficiary] *)
Definition improved_beneficiary (s : Student) : result bool :=
  py_and (Ok (truthy (bmi s)))
    (py_and (is_healthy s) (Ok (truthy_flag (is_beneficiary s)))).

Definition school_entry_of (school : School) (table : list Student)
  : result school_entry :=
  let students :=
    List.filter (fun s => bool_decide (school_id s = Some (school_pk school))) table in
  let student_count := len students in
  '(beneficiaries, at_risk, data_completeness, improvement_rate, performance_score) ←
    (if student_count =? 0 then Ok (0, 0, 0%Q, 0%Q, 0%Q)
     else
       let beneficiaries :=
         len (List.filter (fun s => truthy_flag (is_beneficiary s)) students) in
       at_risk ← filterM needs_feeding students;
       let with_bmi_data := len (List.filter (fun s => truthy (bmi s)) students) in
       data_completeness ←
         (if 0 <? student_count
          then q ← py_div (inject_Z with_bmi_data) (inject_Z student_count);
               Ok (q * 100)%Q
          else Ok 0%Q);
       improved ← filterM improved_beneficiary students;
       improvement_rate ←
         (if 0 <? beneficiaries
          then q ← py_div (inject_Z (len improved)) (inject_Z beneficiaries);
               Ok (q * 100)%Q
          else Ok 0%Q);
       let performance_score :=
         py_round1 ((data_completeness + improvement_rate) / 2)%Q in
       Ok (beneficiaries, len at_risk, data_completeness, improvement_rate,
           performance_score));
  Ok {| se_name := school_name school;
        se_students_count := student_count;
        se_beneficiaries := beneficiaries;
        se_at_risk := at_risk;
        se_performance_score := performance_score;
        se_data_completeness := py_round1 data_completeness;
        se_improvement_rate := py_round1 improvement_rate |}.

Definition _calculate_school_performance (schools : list School)
    (table : list Student) : result (list school_entry) :=
  try_except
    (school_performance ←
       foldM (fun acc school =>
                entry ← school_entry_of school table; Ok (acc ++ [entry]))
             [] schools;
     Ok (py_sort true se_performance_score school_performance))
    (fun _ => Ok []).

(** ** [_calculate_progress_trends] (lines 548-590)

    [Student_query_count] is the outcome of [Student.query.count()], which
    raises when the database cannot be reached. *)

(** The returned dictionary: keys ['labels'], ['values'],
    ['nutritional_improvement'], ['program_compliance'], ['data_quality']. *)
Record progress_trends : Type := {
  pt_labels : list string;
  pt_values : list Q;
  pt_nutritional_improvement : Q;
  pt_program_compliance : Q;
  pt_data_quality : Q
}.

Definition progress_zero : progress_trends :=
  {| pt_labels := []; pt_values := [];
     pt_nutritional_improvement := 0; pt_program_compliance := 0;
     pt_data_quality := 0 |}.

Definition _calculate_progress_trends (Student_query_count : result Z)
    (students_with_bmi : list Student) : result progress_trends :=
  try_except
    (match students_with_bmi with
     | [] => Ok progress_zero
     | _ :: _ =>
         healthy_bmi ← filterM is_healthy students_with_bmi;
         q ← py_div (inject_Z (len healthy_bmi)) (inject_Z (len students_with_bmi));
         let nutritional_improvement := py_round1 (q * 100)%Q in
         at_risk_students ←
           filterM (fun s => outside_normal (bmi s)) students_with_bmi;
         let at_risk_in_program :=
           len (List.filter (fun s => truthy_flag (is_beneficiary s))
                            at_risk_students) in
         program_compliance ←
           match at_risk_students with
           | _ :: _ =>
               q ← py_div (inject_Z at_risk_in_program)
                          (inject_Z (len at_risk_students));
               Ok (py_round1 (q * 100)%Q)
           | [] => Ok 0%Q
           end;
         total_students ← Student_query_count;
         data_quality ←
           (if 0 <? total_students
            then q ← py_div (inject_Z (len students_with_bmi))
                            (inject_Z total_students);
                 Ok (py_round1 (q * 100)%Q)
            else Ok 0%Q);
         Ok {| pt_labels := []; pt_values := [];
               pt_nutritional_improvement := nutritional_improvement;
               pt_program_compliance := program_compliance;
               pt_data_quality := data_quality |}
     end)
    (fun _ => Ok progress_zero).

(** ** [_calculate_health_metrics] (lines 1148-1173) *)

(** The returned dictionary: keys ['improved_count'], ['stable_count'],
    ['declined_count'], ['improvement_rate']. *)
Record health_metrics : Type := {
  hm_improved_count : Z;
  hm_stable_count : Z;
  hm_declined_count : Z;
  hm_improvement_rate : Q
}.

Definition health_zero : health_metrics :=
  {| hm_improved_count := 0; hm_stable_count := 0; hm_declined_count := 0;
     hm_improvement_rate := 0 |}.

Definition _calculate_health_metrics (beneficiary_students : list Student)
  : result health_metrics :=
  try_except
    (match beneficiary_students with
     | [] => Ok health_zero
     | _ :: _ =>
         let total := len beneficiary_students in
         improved ←
           filterM (fun s => py_and (has_valid_bmi s) (is_healthy s))
                   beneficiary_students;
         stable ←
           filterM (fun s => py_and (has_valid_bmi s)
                               (py_or (py_between 16 (bmi s) (37 # 2))
                                      (py_between 25 (bmi s) 30)))
                   beneficiary_students;
         declined ←
           filterM (fun s => py_and (has_valid_bmi s)
                               (py_or (py_lt (bmi s) 16) (py_ge (bmi s) 30)))
                   beneficiary_students;
         improvement_rate ←
           (if 0 <? total
            then q ← py_div (inject_Z (len improved)) (inject_Z total);
                 Ok (q * 100)%Q
            else Ok 0%Q);
         Ok {| hm_improved_count := len improved;
               hm_stable_count := len stable;
               hm_declined_count := len declined;
               hm_improvement_rate := py_round1 improvement_rate |}
     end)
    (fun _ => Ok health_zero).

(** ** The beneficiary flag on the two write paths

    Both handlers first call [student.calculate_bmi()]; the [student]
    argument below is the record after that call. *)

Definition set_is_beneficiary (v : option bool) (s : Student) : Student :=
  {| id := id s; bmi := bmi s; is_beneficiary := v;
     school_id := school_id s; section_id := section_id s;
     created_at := created_at s; updated_at := updated_at s |}.

(** [create_student], lines 1306-1308 *)
Definition create_student__set_flag (student : Student) : result Student :=
  c ← needs_feeding student;
  if c : bool then Ok (set_is_beneficiary (Some true) student)
  else Ok student.

(** [edit_student], lines 1423-1427 *)
Definition edit_student__set_flag (student : Student) : result Student :=
  c ← needs_feeding student;
  if c : bool then Ok (set_is_beneficiary (Some true) student)
  else Ok (set_is_beneficiary (Some false) student).

(** ** [_get_beneficiary_students] (lines 1525-1544) *)

Definition beneficiary_step (beneficiaries : list Student) (student : Student)
  : result (list Student) :=
  if truthy_flag (is_beneficiary student)
  then Ok (beneficiaries ++ [student])
  else Ok beneficiaries.

Definition _get_beneficiary_students (school_students : list Student)
  : result (list Student) :=
  try_except
    (match school_students with
     | [] => Ok []
     | _ => foldM beneficiary_step [] school_students
     end)
    (fun _ => Ok []).

(** ** [_calculate_section_analytics] (lines 1080-1114) *)

Record SchoolSection : Type := {
  section_pk : Z;        (* section.id *)
  section_name : string  (* section.name *)
}.

(** The returned dictionary: keys ['labels'], ['total_students'],
    ['beneficiaries'], ['participation_rate']. *)
Record section_analytics : Type := {
  sa_labels : list string;
  sa_total_students : list Z;
  sa_beneficiaries : list Z;
  sa_participation_rate : list Q
}.

Definition section_analytics_empty : section_analytics :=
  {| sa_labels := []; sa_total_students := []; sa_beneficiaries := [];
     sa_participation_rate := [] |}.

(** [s.bmi is not None and s.bmi > 0 and
     (s.is_beneficiary or (s.bmi < 18.5 or s.bmi >= 25))] *)
Definition section_beneficiary (s : Student) : result bool :=
  py_and (has_valid_bmi s)
    (py_or (Ok (truthy_flag (is_beneficiary s))) (outside_normal (bmi s))).

Definition section_step (school_students : list Student)
    (acc : section_analytics) (section : SchoolSection) : result section_analytics :=
  let section_students :=
    List.filter (fun s => bool_decide (section_id s = Some (section_pk section)))
                school_students in
  section_beneficiaries ← filterM section_beneficiary section_students;
  complete_data ← filterM has_valid_bmi section_students;
  participation_rate ←
    match section_students with
    | _ :: _ =>
        q ← py_div (inject_Z (len complete_data)) (inject_Z (len section_students));
        Ok (q * 100)%Q
    | [] => Ok 0%Q
    end;
  Ok {| sa_labels := sa_labels acc ++ [section_name section];
        sa_total_students := sa_total_students acc ++ [len section_students];
        sa_beneficiaries := sa_beneficiaries acc ++ [len section_beneficiaries];
        sa_participation_rate :=
          sa_participation_rate acc ++ [py_round1 participation_rate] |}.

Definition _calculate_section_analytics (sections : list SchoolSection)
    (school_students : list Student) : result section_analytics :=
  try_except
    (match sections with
     | [] => Ok section_analytics_empty
     | _ => foldM (section_step school_students) section_analytics_empty sections
     end)
    (fun _ => Ok section_analytics_empty).

(** ** [_calculate_nutritional_trends] (lines 1116-1146) *)

(** The returned dictionary: keys ['labels'], ['healthy'], ['at_risk']. *)
Record nutritional_trends : Type := {
  nt_labels : list string;
  nt_healthy : list Z;
  nt_at_risk : list Z
}.

Definition nutritional_step (month_date : Z -> datetime) (students : list Student)
    (acc : nutritional_trends) (i : Z) : result nutritional_trends :=
  let month_name := calendar_month_abbr (month (month_date i)) in
  month_students ← filterM (valid_and_created_in (month_date i)) students;
  healthy ← filterM is_healthy month_students;
  at_risk ← filterM (fun s => outside_normal (bmi s)) month_students;
  Ok {| nt_labels := month_name :: nt_labels acc;
        nt_healthy := len healthy :: nt_healthy acc;
        nt_at_risk := len at_risk :: nt_at_risk acc |}.

Definition _calculate_nutritional_trends (month_date : Z -> datetime)
    (students : list Student) : result nutritional_trends :=
  try_except
    (foldM (nutritional_step month_date students)
           {| nt_labels := []; nt_healthy := []; nt_at_risk := [] |}
           [0; 1; 2; 3; 4; 5])
    (fun _ => Ok {| nt_labels := []; nt_healthy := []; nt_at_risk := [] |}).

(** ** [_calculate_monthly_summary] (lines 1175-1204)

    [now] is [datetime.now()] and [strftime_B_Y] is [strftime('%B %Y')].
    [month_start] is the first instant of the month of [now], so a date is
    at or after it exactly when its (year, month) is at or after that of
    [now]. *)

(** The returned dictionary: keys ['current_month'], ['new_students'],
    ['assessments_completed'], ['alerts_generated']. *)
Record monthly_summary : Type := {
  ms_current_month : string;
  ms_new_students : Z;
  ms_assessments_completed : Z;
  ms_alerts_generated : Z
}.

Definition at_or_after_month_start (now : datetime) (s : Student) : bool :=
  match created_at s with
  | Some c => (year now <? year c) || ((year c =? year now) && (month now <=? month c))
  | None => false
  end.

Definition _calculate_monthly_summary (now : datetime)
    (strftime_B_Y : datetime -> string) (students : list Student)
  : result monthly_summary :=
  try_except
    (let current_month := strftime_B_Y now in
     let new_students := len (List.filter (at_or_after_month_start now) students) in
     assessments ← filterM has_valid_bmi students;
     alerts ←
       filterM (fun s => py_and (has_valid_bmi s)
                           (py_or (py_lt (bmi s) 16) (py_ge (bmi s) 30)))
               students;
     Ok {| ms_current_month := current_month;
           ms_new_students := new_students;
           ms_assessments_completed := len assessments;
           ms_alerts_generated := len alerts |})
    (fun _ => Ok {| ms_current_month := strftime_B_Y now;
                    ms_new_students := 0;
                    ms_assessments_completed := 0;
                    ms_alerts_generated := 0 |}).

(** ** [_calculate_compliance_stats] (lines 648-684)

    [School_query_all] is the outcome of [School.query.all()], which raises
    when the database cannot be reached.  The thresholds 0.9 and 0.5 are
    the rationals 9/10 and 1/2. *)

(** The returned dictionary: keys ['complete_docs'], ['partial_docs'],
    ['missing_docs'], ['total_schools']. *)
Record compliance_stats : Type := {
  cs_complete_docs : Z;
  cs_partial_docs : Z;
  cs_missing_docs : Z;
  cs_total_schools : Z
}.

Definition truthy_int (x : option Z) : bool :=
  match x with
  | Some v => negb (v =? 0)
  | None => false
  end.

Definition compliance_step (table : list Student) (acc : Z * Z * Z)
    (school : School) : result (Z * Z * Z) :=
  let '(complete_docs, partial_docs, missing_docs) := acc in
  let students :=
    List.filter (fun s => bool_decide (school_id s = Some (school_pk school))) table in
  match students with
  | [] => Ok (complete_docs, partial_docs, missing_docs + 1)
  | _ :: _ =>
      let with_bmi := len (List.filter (fun s => truthy (bmi s)) students) in
      let with_sections :=
        len (List.filter (fun s => truthy_int (section_id s)) students) in
      completeness_ratio ←
        py_div (inject_Z (with_bmi + with_sections)) (inject_Z (len students * 2));
      if Qle_bool (9 # 10) completeness_ratio
      then Ok (complete_docs + 1, partial_docs, missing_docs)
      else if Qle_bool (1 # 2) completeness_ratio
      then Ok (complete_docs, partial_docs + 1, missing_docs)
      else Ok (complete_docs, partial_docs, missing_docs + 1)
  end.

Definition _calculate_compliance_stats (School_query_all : result (list School))
    (table : list Student) (total_schools : Z) : result compliance_stats :=
  try_except
    (schools ← School_query_all;
     '(complete_docs, partial_docs, missing_docs) ←
       foldM (compliance_step table) (0, 0, 0) schools;
     Ok {| cs_complete_docs := complete_docs;
           cs_partial_docs := partial_docs;
           cs_missing_docs := missing_docs;
           cs_total_schools := total_schools |})
    (fun _ => Ok {| cs_complete_docs := 0; cs_partial_docs := 0;
                    cs_missing_docs := 0; cs_total_schools := total_schools |}).

(** ** [_get_top_performing_schools] (lines 740-756) *)

(** One element of [top_schools]: keys ['name'], ['improvement_rate'],
    ['performance_score']. *)
Record top_school : Type := {
  ts_name : string;
  ts_improvement_rate : Q;
  ts_performance_score : Q
}.

Definition _get_top_performing_schools (schools : list School)
    (table : list Student) : result (list top_school) :=
  try_except
    (school_performance ← _calculate_school_performance schools table;
     foldM (fun top_schools school =>
              Ok (top_schools ++
                  [{| ts_name := se_name school;
                      ts_improvement_rate := se_improvement_rate school;
                      ts_performance_score := se_performance_score school |}]))
           [] (firstn 3 school_performance))     (* school_performance[:3] *)
    (fun _ => Ok []).

End school.

(** [round(x, ndigits)]: to the nearest multiple of 10^-ndigits, a tie going
    to the even one. *)
Definition py_round (ndigits : nat) (x : Q) : Q :=
  let scale := inject_Z (10 ^ Z.of_nat ndigits) in
  let n := (x * scale)%Q in
  let f := Qfloor n in
  let r := (n - inject_Z f)%Q in
  let up :=
    match (r ?= 1 # 2)%Q with
    | Lt => false
    | Gt => true
    | Eq => Z.odd f
    end in
  (inject_Z (if up then f + 1 else f) / scale)%Q.

(** * app/routes/super_admin.py: [dashboard] *)

Module super_admin.

(** [student_filter] (lines 39-48): the rows of the selected school when
    the request gives a [school_id] and that school exists, every row
    otherwise.  [schools] holds the primary keys of the [school] table. *)
Definition dashboard__student_filter (schools : list Z) (selected : option Z)
    (table : list Student) : list Student :=
  match selected with
  | Some sid =>
      if negb (sid =? 0) && bool_decide (sid ∈ schools)
      then List.filter (fun s => bool_decide (school_id s = Some sid)) table
      else table
  | None => table
  end.

(** [bmi_distribution] (lines 75-101) *)
Definition dashboard_zero : gmap string Z :=
  <["normal" := 0]> (<["underweight" := 0]> (<["overweight" := 0]>
    (<["obese" := 0]> (<["severely_underweight" := 0]>
      (<["severely_wasted" := 0]> (<["wasted" := 0]> ∅)))))).

Definition dashboard_step (bmi_distribution : gmap string Z) (student : Student)
  : result (gmap string Z) :=
  c1 ← py_lt (bmi student) 16;
  if c1 : bool then
    d ← dict_incr "severely_underweight" bmi_distribution;
    dict_incr "severely_wasted" d
  else
  c2 ← py_lt (bmi student) (37 # 2);
  if c2 : bool then
    d ← dict_incr "underweight" bmi_distribution;
    dict_incr "wasted" d
  else
  c3 ← py_lt (bmi student) 25;
  if c3 : bool then dict_incr "normal" bmi_distribution else
  c4 ← py_lt (bmi student) 30;
  if c4 : bool then dict_incr "overweight" bmi_distribution else
  dict_incr "obese" bmi_distribution.

Definition dashboard__bmi_distribution (student_filter : list Student)
  : result (gmap string Z) :=
  let students_with_bmi := List.filter bmi_not_null student_filter in
  foldM dashboard_step dashboard_zero students_with_bmi.

(** [at_risk_students] (lines 184-189) *)
Definition dashboard__at_risk_students (student_filter : list Student) : Z :=
  len (List.filter sql_at_risk student_filter).

(** [system_metrics['beneficiary_coverage']] (lines 149-155, 197) *)
Definition dashboard__beneficiary_coverage (student_filter : list Student)
  : result Q :=
  let total_students := len student_filter in
  let beneficiaries :=
    len (List.filter (fun s => bool_decide (is_beneficiary s = Some true))
                     student_filter) in
  if 0 <? total_students
  then q ← py_div (inject_Z beneficiaries) (inject_Z (Z.max total_students 1));
       Ok (q * 100)%Q
  else Ok 0%Q.

(** [beneficiary_distribution] (lines 148-155): the rows whose flag is
    true and the rows whose flag is false; a NULL flag matches neither. *)
Definition dashboard__beneficiary_distribution (student_filter : list Student)
  : Z * Z :=
  (len (List.filter (fun s => bool_decide (is_beneficiary s = Some true))
                    student_filter),
   len (List.filter (fun s => bool_decide (is_beneficiary s = Some false))
                    student_filter)).

(** [age_groups] (lines 157-175).  [age] is the property [Student.age] of
    the model. *)
Definition age_groups_zero : gmap string Z :=
  <["5-8" := 0]> (<["9-12" := 0]> (<["13-16" := 0]> (<["17+" := 0]> ∅))).

Definition age_step (age : Student -> option Z) (age_groups : gmap string Z)
    (student : Student) : result (gmap string Z) :=
  match age student with
  | Some a =>
      if a =? 0 then Ok age_groups                         (* if student.age: *)
      else if (5 <=? a) && (a <=? 8) then dict_incr "5-8" age_groups
      else if (9 <=? a) && (a <=? 12) then dict_incr "9-12" age_groups
      else if (13 <=? a) && (a <=? 16) then dict_incr "13-16" age_groups
      else if 17 <=? a then dict_incr "17+" age_groups
      else Ok age_groups
  | None => Ok age_groups
  end.

Definition dashboard__age_groups (age : Student -> option Z)
    (filtered_students : list Student) : result (gmap string Z) :=
  foldM (age_step age) age_groups_zero filtered_students.

(** ** [generate_sbfp_report]: the rows and the totals (lines 1276-1318) *)

(** One element of [report_data]: keys ['school_name'], ['total_students'],
    ['sbfp_beneficiaries'], ['beneficiary_percentage']. *)
Record report_row : Type := {
  rr_school_name : string;
  rr_total_students : Z;
  rr_sbfp_beneficiaries : Z;
  rr_beneficiary_percentage : Q
}.

(** [round((n / d * 100) if d > 0 else 0, 2)] *)
Definition rounded_rate (n d : Z) : result Q :=
  rate ← (if 0 <? d
          then q ← py_div (inject_Z n) (inject_Z d); Ok (q * 100)%Q
          else Ok 0%Q);
  Ok (py_round 2 rate).

Definition report_row_of (table : list Student) (sch : school.School)
  : result report_row :=
  let beneficiary_count :=
    len (List.filter
           (fun s => bool_decide (school_id s = Some (school.school_pk sch))
                     && bool_decide (is_beneficiary s = Some true)) table) in
  let total_students :=
    len (List.filter
           (fun s => bool_decide (school_id s = Some (school.school_pk sch))) table) in
  percentage ← rounded_rate beneficiary_count total_students;
  Ok {| rr_school_name := school.school_name sch;
        rr_total_students := total_students;
        rr_sbfp_beneficiaries := beneficiary_count;
        rr_beneficiary_percentage := percentage |}.

(** [sum([...])] over integers *)
Definition py_sum (l : list Z) : Z := foldl Z.add 0 l.

(** The sorted rows, [total_beneficiaries], [total_students_all] and
    [overall_percentage]. *)
Definition generate_sbfp_report__data (schools : list school.School)
    (table : list Student) : result (list report_row * Z * Z * Q) :=
  report_data ←
    foldM (fun acc sch => row ← report_row_of table sch; Ok (acc ++ [row]))
          [] schools;
  let report_data :=
    school.py_sort true (fun x => inject_Z (rr_sbfp_beneficiaries x)) report_data in
  let total_beneficiaries := py_sum (map rr_sbfp_beneficiaries report_data) in
  let total_students_all := py_sum (map rr_total_students report_data) in
  overall_percentage ← rounded_rate total_beneficiaries total_students_all;
  Ok (report_data, total_beneficiaries, total_students_all, overall_percentage).

End super_admin.

(** * The vocabulary of the properties *)

(** ** Records and counts *)

(** A record whose [bmi] is present and strictly positive. *)
Definition valid_bmi (s : Student) : bool :=
  match bmi s with
  | Some v => Qltb 0 v
  | None => false
  end.

#[global] Instance BmiCategory_eq_dec : EqDecision BmiCategory.
Proof. solve_decision. Defined.

#[global] Instance Qlt_decision (x y : Q) : Decision (x < y)%Q.
Proof. unfold Qlt. apply _. Defined.

#[global] Instance Qle_decision (x y : Q) : Decision (x <= y)%Q.
Proof. unfold Qle. apply _. Defined.

(** The number of elements of [l] that satisfy [P]. *)
Definition number_of {A} (P : A -> Prop) `{forall x, Decision (P x)}
    (l : list A) : Z :=
  len (filter P l).

(** [n / d * 100], and 0 when [d] is 0. *)
Definition percent (n d : Z) : Q :=
  if d =? 0 then 0%Q else (inject_Z n / inject_Z d * 100)%Q.

(** ** The counting loops *)

Definition four_keys : list string :=
  ["severely_wasted"; "wasted"; "normal"; "overweight"].

Definition seven_keys : list string :=
  ["severely_underweight"; "underweight"; "severely_wasted"; "wasted";
   "normal"; "overweight"; "obese"].

Definition has_keys (ks : list string) (d : gmap string Z) : Prop :=
  forall k, In k ks -> is_Some (d !! k).

(** The category keys that the loop body bumps for one record. *)
Definition category_keys (s : Student) : list string :=
  match bmi s with
  | Some b => [category_key (classify b)]
  | None => []
  end.

(** The four-way chain of [_calculate_student_bmi_distribution]. *)
Definition student_keys (s : Student) : list string :=
  match bmi s with
  | Some b =>
      [if Qltb b 16 then "severely_wasted"
       else if Qltb b (37 # 2) then "wasted"
       else if Qltb b 25 then "normal"
       else "overweight"]
  | None => []
  end.

(** The keys that super_admin.py's [dashboard] bumps for one record. *)
Definition dashboard_keys (s : Student) : list string :=
  match bmi s with
  | Some b =>
      match classify b with
      | SeverelyWasted => ["severely_underweight"; "severely_wasted"]
      | Wasted => ["underweight"; "wasted"]
      | c => [category_key c]
      end
  | None => []
  end.

Definition bump (d : gmap string Z) (k : string) : gmap string Z :=
  alter (fun v => v + 1) k d.

(** The dictionary after the counting loop over [l], as a pure function. *)
Definition tally (keys : Student -> list string) (l : list Student)
    (d : gmap string Z) : gmap string Z :=
  foldl (fun d s => foldl bump d (keys s)) d l.

Definition indicator (ks : list string) (k : string) : Z :=
  if bool_decide (k ∈ ks) then 1 else 0.

(** How many records of [l] bump the key [k]. *)
Definition occurrences (keys : Student -> list string) (k : string)
    (l : list Student) : Z :=
  len (List.filter (fun s => bool_decide (k ∈ keys s)) l).

(** How many records of [l] have a valid BMI of category [c]. *)
Definition count_category (c : BmiCategory) (l : list Student) : Z :=
  len (List.filter
         (fun s => valid_bmi s
                   && bool_decide (category_key c ∈ category_keys s)) l).

(** ** At-risk students and beneficiaries *)

(** The claims' notion of at-risk: BMI present and outside the Normal
    range. *)
Definition outside_normal_range (s : Student) : Prop :=
  match bmi s with
  | Some b => (b < 37 # 2 \/ 25 <= b)%Q
  | None => False
  end.

#[global] Instance outside_normal_range_dec (s : Student) :
  Decision (outside_normal_range s).
Proof. unfold outside_normal_range. destruct (bmi s); apply _. Defined.

(** The rule of [_get_at_risk_students]: BMI present, positive, and below 16
    or from 30 on. *)
Definition severely_at_risk (s : Student) : Prop :=
  match bmi s with
  | Some b => (0 < b)%Q /\ (b < 16 \/ 30 <= b)%Q
  | None => False
  end.

#[global] Instance severely_at_risk_dec (s : Student) :
  Decision (severely_at_risk s).
Proof. unfold severely_at_risk. destruct (bmi s); apply _. Defined.

Definition severe (s : Student) : bool :=
  match bmi s with
  | Some b => Qltb 0 b && (Qltb b 16 || Qle_bool 30 b)
  | None => false
  end.

(** The beneficiary rule of the two write paths: the bmi is present, not 0,
    and below 18.5 or from 25 on. *)
Definition unhealthy_bmi (s : Student) : Prop :=
  match bmi s with
  | Some b => ~ (b == 0)%Q /\ (b < 37 # 2 \/ 25 <= b)%Q
  | None => False
  end.

(** The pure readings of the comprehensions of
    [_calculate_school_performance] and [_calculate_progress_trends]. *)
Definition needs_feeding_b (s : Student) : bool :=
  truthy (bmi s) && sql_at_risk s.

Definition healthy (s : Student) : bool :=
  match bmi s with
  | Some b => Qle_bool (37 # 2) b && Qltb b 25
  | None => false
  end.

Definition improved_b (s : Student) : bool :=
  truthy (bmi s) && (healthy s && truthy_flag (is_beneficiary s)).

Definition marked (s : Student) : bool := truthy_flag (is_beneficiary s).

Definition of_school (school : school.School) (s : Student) : bool :=
  bool_decide (school_id s = Some (school.school_pk school)).

(** ** Means, shares and trends *)

(** The sum and the mean of the BMI values of [l]. *)
Definition bmi_sum (l : list Student) : Q :=
  foldl (fun acc s => (acc + default 0 (bmi s))%Q) 0%Q l.

Definition bmi_mean (l : list Student) : Q := (bmi_sum l / inject_Z (len l))%Q.

(** The share, in percent, of the records of [l] with 18.5 <= bmi < 25. *)
Definition healthy_share (l : list Student) : Q :=
  (inject_Z (len (List.filter healthy l)) / inject_Z (len l) * 100)%Q.

(** What a month with no record of its own reports. *)
Definition population_mean (students : list Student) : Q :=
  match List.filter valid_bmi students with
  | [] => 37 # 2
  | all => py_round1 (bmi_mean all)
  end.

Definition population_share (table : list Student) : Q :=
  match List.filter bmi_not_null table with
  | [] => 0
  | all => healthy_share all
  end.

(** The value that [_calculate_improved_bmi_progress] reports for the month
    [d], and the one that [_calculate_monthly_progress_trends] reports for
    the month number [m]. *)
Definition improved_value (d : datetime) (students : list Student) : Q :=
  match List.filter (fun s => valid_bmi s && school.created_in d s) students with
  | [] => population_mean students
  | month_students => py_round1 (bmi_mean month_students)
  end.

Definition monthly_value (table : list Student) (m : Z) : Q :=
  py_round1
    match List.filter (school.month_matches m) table with
    | [] => population_share table
    | month_students =>
        match List.filter (fun s => truthy (bmi s)) month_students with
        | [] => population_share table
        | with_bmi => healthy_share with_bmi
        end
    end.

(** What [_calculate_progress_trends] computes when nothing raises. *)
Definition progress_of (total_students : Z) (students_with_bmi : list Student)
  : school.progress_trends :=
  let at_risk_students := List.filter sql_at_risk students_with_bmi in
  {| school.pt_labels := [];
     school.pt_values := [];
     school.pt_nutritional_improvement := py_round1 (healthy_share students_with_bmi);
     school.pt_program_compliance :=
       match at_risk_students with
       | [] => 0
       | _ => py_round1 (inject_Z (len (List.filter marked at_risk_students))
                         / inject_Z (len at_risk_students) * 100)
       end;
     school.pt_data_quality :=
       if 0 <? total_students
       then py_round1 (inject_Z (len students_with_bmi)
                       / inject_Z total_students * 100)
       else 0 |}.

(** ** Sample records *)

Definition student_with_bmi (b : option Q) : Student :=
  {| id := 1; bmi := b; is_beneficiary := None; school_id := None;
     section_id := None; created_at := None; updated_at := None |}.

Definition student_created (b : option Q) (flag : option bool) (d : datetime)
  : Student :=
  {| id := 1; bmi := b; is_beneficiary := flag; school_id := Some 1;
     section_id := None; created_at := Some d; updated_at := None |}.

(** A clock for the examples: the months from November 2026 backwards. *)
Definition sample_clock (i : Z) : datetime := {| year := 2026; month := 11 - i |}.

Definition sample_students : list Student :=
  [student_created (Some 20%Q) (Some true) {| year := 2026; month := 11 |};
   student_created (Some 15%Q) None {| year := 2026; month := 10 |}].

Definition normal_unflagged : Student := student_with_bmi (Some 20%Q).

Definition sample_school : school.School :=
  {| school.school_pk := 1; school.school_name := "Central" |}.

Definition sample_section : school.SchoolSection :=
  {| school.section_pk := 7; school.section_name := "Grade 1 - A" |}.

(** ** The further helpers, as pure functions *)

(** The entry that [_calculate_school_performance] builds for one school. *)
Definition school_entry_value (table : list Student) (school : school.School)
  : school.school_entry :=
  let students := List.filter (of_school school) table in
  let beneficiaries := len (List.filter marked students) in
  let data_completeness :=
    percent (len (List.filter (fun s => truthy (bmi s)) students)) (len students) in
  let improvement_rate :=
    if len students =? 0 then 0%Q
    else percent (len (List.filter improved_b students)) beneficiaries in
  {| school.se_name := school.school_name school;
     school.se_students_count := len students;
     school.se_beneficiaries := if len students =? 0 then 0 else beneficiaries;
     school.se_at_risk :=
       if len students =? 0 then 0
       else len (List.filter needs_feeding_b students);
     school.se_performance_score :=
       if len students =? 0 then 0%Q
       else py_round1 ((data_completeness + improvement_rate) / 2)%Q;
     school.se_data_completeness := py_round1 data_completeness;
     school.se_improvement_rate := py_round1 improvement_rate |}.

Definition top_school_of (e : school.school_entry) : school.top_school :=
  {| school.ts_name := school.se_name e;
     school.ts_improvement_rate := school.se_improvement_rate e;
     school.ts_performance_score := school.se_performance_score e |}.

(** A mild concern for [_calculate_health_metrics]: 16 <= bmi < 18.5 or
    25 <= bmi < 30. *)
Definition mild (s : Student) : bool :=
  match bmi s with
  | Some b => (Qle_bool 16 b && Qltb b (37 # 2)) || (Qle_bool 25 b && Qltb b 30)
  | None => false
  end.

(** The students of a section, and those that
    [_calculate_section_analytics] counts as its beneficiaries. *)
Definition in_section (section : school.SchoolSection) (s : Student) : bool :=
  bool_decide (section_id s = Some (school.section_pk section)).

Definition section_beneficiary_b (s : Student) : bool :=
  valid_bmi s && (marked s || sql_at_risk s).

Definition section_analytics_value (sections : list school.SchoolSection)
    (school_students : list Student) : school.section_analytics :=
  {| school.sa_labels := map school.section_name sections;
     school.sa_total_students :=
       map (fun sec => len (List.filter (in_section sec) school_students)) sections;
     school.sa_beneficiaries :=
       map (fun sec => len (List.filter section_beneficiary_b
                              (List.filter (in_section sec) school_students)))
           sections;
     school.sa_participation_rate :=
       map (fun sec =>
              let section_students := List.filter (in_section sec) school_students in
              py_round1 (percent (len (List.filter valid_bmi section_students))
                                 (len section_students)))
           sections |}.

(** The students with a valid BMI that were created in the month [d]. *)
Definition valid_created_in (d : datetime) (s : Student) : bool :=
  valid_bmi s && school.created_in d s.

(** The age group of a student in super_admin.py's [dashboard]; [age] is
    the property [Student.age] of the model. *)
Definition age_keys (age : Student -> option Z) (s : Student) : list string :=
  match age s with
  | Some a =>
      if (5 <=? a) && (a <=? 8) then ["5-8"]
      else if (9 <=? a) && (a <=? 12) then ["9-12"]
      else if (13 <=? a) && (a <=? 16) then ["13-16"]
      else if 17 <=? a then ["17+"]
      else []
  | None => []
  end.

Definition age_group_keys : list string := ["5-8"; "9-12"; "13-16"; "17+"].

Definition aged_five_or_more (age : Student -> option Z) (s : Student) : bool :=
  match age s with
  | Some a => 5 <=? a
  | None => false
  end.

(** The row that [generate_sbfp_report] builds for one school. *)
Definition report_row_value (table : list Student) (sch : school.School)
  : super_admin.report_row :=
  let beneficiary_count :=
    len (List.filter
           (fun s => of_school sch s && bool_decide (is_beneficiary s = Some true))
           table) in
  let total_students := len (List.filter (of_school sch) table) in
  {| super_admin.rr_school_name := school.school_name sch;
     super_admin.rr_total_students := total_students;
     super_admin.rr_sbfp_beneficiaries := beneficiary_count;
     super_admin.rr_beneficiary_percentage :=
       py_round 2 (percent beneficiary_count total_students) |}.

(** The name and the counts of an entry of [_calculate_school_performance]
    and of a row of [generate_sbfp_report], and the ones of a school. *)
Definition entry_counts (e : school.school_entry) : string * Z * Z * Z :=
  (school.se_name e, school.se_students_count e, school.se_beneficiaries e,
   school.se_at_risk e).

Definition school_counts (table : list Student) (school : school.School)
  : string * Z * Z * Z :=
  let students := List.filter (of_school school) table in
  (school.school_name school, len students, len (List.filter marked students),
   len (List.filter needs_feeding_b students)).

Definition row_counts (r : super_admin.report_row) : string * Z * Z :=
  (super_admin.rr_school_name r, super_admin.rr_total_students r,
   super_admin.rr_sbfp_beneficiaries r).

Definition school_row_counts (table : list Student) (sch : school.School)
  : string * Z * Z :=
  (school.school_name sch, len (List.filter (of_school sch) table),
   len (List.filter
          (fun s => of_school sch s && bool_decide (is_beneficiary s = Some true))
          table)).

(** A number between 0 and 100. *)
Definition is_percentage (x : Q) : Prop := (0 <= x /\ x <= 100)%Q.

(** * Basic facts *)

Lemma Qltb_lt (x y : Q) : Qltb x y = true <-> (x < y)%Q.
Proof.
  unfold Qltb. rewrite negb_true_iff. split.
  - intros H. apply Qnot_le_lt. intros Hle.
    apply Qle_bool_iff in Hle. congruence.
  - intros H. destruct (Qle_bool y x) eqn:E; [|reflexivity].
    apply Qle_bool_iff in E. exfalso. exact (Qlt_not_le _ _ H E).
Qed.

Lemma Qltb_ge (x y : Q) : Qltb x y = false <-> (y <= x)%Q.
Proof.
  unfold Qltb. rewrite negb_false_iff. apply Qle_bool_iff.
Qed.

Lemma len_nil {A} : len (@nil A) = 0.
Proof. reflexivity. Qed.

Lemma len_cons {A} (x : A) (l : list A) : len (x :: l) = 1 + len l.
Proof. unfold len. simpl length. lia. Qed.

Lemma len_nonneg {A} (l : list A) : 0 <= len l.
Proof. unfold len. lia. Qed.

Lemma filterM_pure {A} (p : A -> result bool) (q : A -> bool) (l : list A) :
  Forall (fun x => p x = Ok (q x)) l ->
  filterM p l = Ok (List.filter q l).
Proof.
  induction 1 as [|x l Hx _ IH]; [reflexivity|].
  simpl. rewrite Hx. simpl. rewrite IH. simpl. destruct (q x); reflexivity.
Qed.

Lemma filterM_pure_all {A} (p : A -> result bool) (q : A -> bool) (l : list A) :
  (forall x, p x = Ok (q x)) -> filterM p l = Ok (List.filter q l).
Proof.
  intros H. apply filterM_pure. apply Forall_forall. intros x _. apply H.
Qed.

Lemma filter_Permutation {A} (p : A -> bool) (l l' : list A) :
  Permutation l l' -> Permutation (List.filter p l) (List.filter p l').
Proof.
  induction 1 as [|x l l' _ IH|x y l|l l' l'' _ IH1 _ IH2]; simpl.
  - constructor.
  - destruct (p x); [constructor|]; exact IH.
  - destruct (p x), (p y); try reflexivity. constructor.
  - etransitivity; eassumption.
Qed.

Lemma len_Permutation {A} (l l' : list A) : Permutation l l' -> len l = len l'.
Proof. intros H. unfold len. f_equal. apply Permutation_length, H. Qed.

Lemma has_valid_bmi_pure (s : Student) :
  school.has_valid_bmi s = Ok (valid_bmi s).
Proof.
  unfold school.has_valid_bmi, valid_bmi. destruct (bmi s); reflexivity.
Qed.

Lemma valid_bmi_not_null (s : Student) : valid_bmi s = true -> bmi_not_null s = true.
Proof. unfold valid_bmi, bmi_not_null. destruct (bmi s); [reflexivity|discriminate]. Qed.

Lemma filter_valid_not_null (l : list Student) :
  Forall (fun s => bmi_not_null s = true) (List.filter valid_bmi l).
Proof.
  apply List.Forall_forall. intros s Hs. apply filter_In in Hs as [_ Hs].
  apply valid_bmi_not_null, Hs.
Qed.

Lemma filter_not_null (l : list Student) :
  Forall (fun s => bmi_not_null s = true) (List.filter bmi_not_null l).
Proof.
  apply List.Forall_forall. intros s Hs. apply filter_In in Hs as [_ Hs]. exact Hs.
Qed.

(** * The counting loops as pure tallies *)

Lemma dict_incr_bump (k : string) (d : gmap string Z) :
  is_Some (d !! k) -> dict_incr k d = Ok (bump d k).
Proof.
  intros [v Hv]. unfold dict_incr, bump. rewrite Hv. f_equal.
  apply map_eq. intros j. rewrite lookup_insert, lookup_alter.
  destruct (decide (k = j)) as [->|]; [|reflexivity].
  rewrite Hv. reflexivity.
Qed.

Lemma lookup_bump (d : gmap string Z) (k j : string) :
  bump d k !! j = (fun v => if decide (k = j) then v + 1 else v) <$> d !! j.
Proof.
  unfold bump. rewrite lookup_alter.
  destruct (decide (k = j)) as [->|].
  - reflexivity.
  - destruct (d !! j); reflexivity.
Qed.

Lemma has_keys_bump (ks : list string) (d : gmap string Z) (k : string) :
  has_keys ks d -> has_keys ks (bump d k).
Proof.
  intros H j Hj. rewrite lookup_bump. destruct (H j Hj) as [v ->]. eexists.
  reflexivity.
Qed.

Lemma has_keys_bumps (ks js : list string) (d : gmap string Z) :
  has_keys ks d -> has_keys ks (foldl bump d js).
Proof.
  revert d. induction js as [|j js IH]; intros d H; [exact H|].
  simpl. apply IH, has_keys_bump, H.
Qed.

Lemma foldM_tally (step : gmap string Z -> Student -> result (gmap string Z))
    (keys : Student -> list string) (ks : list string) (l : list Student) :
  (forall d s, In s l -> has_keys ks d -> step d s = Ok (foldl bump d (keys s))) ->
  forall d, has_keys ks d -> foldM step d l = Ok (tally keys l d).
Proof.
  induction l as [|s l IH]; intros Hstep d Hd; [reflexivity|].
  simpl. rewrite (Hstep d s (or_introl eq_refl) Hd). simpl.
  apply IH.
  - intros d' s' Hs'. apply Hstep. right. exact Hs'.
  - apply has_keys_bumps, Hd.
Qed.

Lemma lookup_bumps (js : list string) (d : gmap string Z) (k : string) :
  NoDup js ->
  foldl bump d js !! k = (fun v => if bool_decide (k ∈ js) then v + 1 else v) <$> d !! k.
Proof.
  intros Hnd. revert d. induction Hnd as [|j js Hj _ IH]; intros d.
  - simpl. destruct (d !! k); reflexivity.
  - simpl. rewrite IH, lookup_bump. destruct (d !! k) as [v|]; [|reflexivity].
    simpl. f_equal.
    destruct (decide (j = k)) as [->|Hne].
    + rewrite (bool_decide_eq_false_2 _ Hj).
      rewrite bool_decide_eq_true_2 by (left). reflexivity.
    + destruct (decide (k ∈ js)) as [Hin|Hnin].
      * rewrite !bool_decide_eq_true_2; [reflexivity| by right |exact Hin].
      * rewrite !bool_decide_eq_false_2; [reflexivity| |exact Hnin].
        intros Hin. apply elem_of_cons in Hin as [->|Hin]; [by apply Hne|by apply Hnin].
Qed.

Lemma lookup_tally (keys : Student -> list string) (l : list Student)
    (d : gmap string Z) (k : string) :
  (forall s, NoDup (keys s)) ->
  tally keys l d !! k = (fun v => v + occurrences keys k l) <$> d !! k.
Proof.
  intros Hnd. revert d. induction l as [|s l IH]; intros d.
  - unfold occurrences. simpl. rewrite len_nil.
    destruct (d !! k) as [v|]; simpl; [f_equal; lia|reflexivity].
  - change (tally keys (s :: l) d) with (tally keys l (foldl bump d (keys s))).
    rewrite IH, lookup_bumps by apply Hnd.
    unfold occurrences. simpl List.filter.
    destruct (d !! k) as [v|]; [|reflexivity]. simpl. f_equal.
    destruct (bool_decide (k ∈ keys s)); rewrite ?len_cons; lia.
Qed.

Lemma category_keys_NoDup (s : Student) : NoDup (category_keys s).
Proof.
  unfold category_keys. destruct (bmi s); [apply NoDup_singleton|constructor].
Qed.

Lemma student_keys_NoDup (s : Student) : NoDup (student_keys s).
Proof.
  unfold student_keys. destruct (bmi s); [apply NoDup_singleton|constructor].
Qed.

Lemma dashboard_keys_NoDup (s : Student) : NoDup (dashboard_keys s).
Proof.
  unfold dashboard_keys. destruct (bmi s) as [b|]; [|constructor].
  destruct (classify b); simpl; try apply NoDup_singleton;
    (apply NoDup_cons; split; [|apply NoDup_singleton]);
    rewrite list_elem_of_singleton; discriminate.
Qed.

Lemma has_keys_zero (ks : list string) (d : gmap string Z) :
  forallb (fun k => bool_decide (is_Some (d !! k))) ks = true -> has_keys ks d.
Proof.
  intros H k Hk. rewrite forallb_forall in H.
  exact (proj1 (bool_decide_eq_true _) (H k Hk)).
Qed.

Ltac key_present H := apply dict_incr_bump, H; simpl; tauto.

Lemma accurate_step_keys (d : gmap string Z) (s : Student) :
  bmi_not_null s = true -> has_keys five_keys d ->
  school.accurate_step d s = Ok (foldl bump d (category_keys s)).
Proof.
  unfold bmi_not_null, school.accurate_step, category_keys, classify.
  destruct (bmi s) as [b|]; [intros _ H|discriminate]. simpl.
  destruct (Qltb b 16); [key_present H|]. simpl.
  destruct (Qltb b (37 # 2)); [key_present H|]. simpl.
  destruct (Qltb b 25); [key_present H|]. simpl.
  destruct (Qltb b 30); key_present H.
Qed.

Lemma student_step_keys (d : gmap string Z) (s : Student) :
  bmi_not_null s = true -> has_keys four_keys d ->
  school.student_step d s = Ok (foldl bump d (student_keys s)).
Proof.
  unfold bmi_not_null, school.student_step, student_keys.
  destruct (bmi s) as [b|]; [intros _ H|discriminate]. simpl.
  destruct (Qltb b 16); [key_present H|]. simpl.
  destruct (Qltb b (37 # 2)); [key_present H|]. simpl.
  destruct (Qltb b 25); key_present H.
Qed.

Lemma dashboard_step_keys (d : gmap string Z) (s : Student) :
  bmi_not_null s = true -> has_keys seven_keys d ->
  super_admin.dashboard_step d s = Ok (foldl bump d (dashboard_keys s)).
Proof.
  unfold bmi_not_null, super_admin.dashboard_step, dashboard_keys, classify.
  destruct (bmi s) as [b|]; [intros _ H|discriminate]. simpl.
  destruct (Qltb b 16).
  { rewrite dict_incr_bump by (apply H; simpl; tauto). simpl.
    apply dict_incr_bump, has_keys_bump with (ks := seven_keys); [exact H|].
    simpl; tauto. }
  simpl. destruct (Qltb b (37 # 2)).
  { rewrite dict_incr_bump by (apply H; simpl; tauto). simpl.
    apply dict_incr_bump, has_keys_bump with (ks := seven_keys); [exact H|].
    simpl; tauto. }
  simpl. destruct (Qltb b 25); [key_present H|]. simpl.
  destruct (Qltb b 30); key_present H.
Qed.

Lemma accurate_zero_keys : has_keys five_keys school.accurate_zero.
Proof. apply has_keys_zero. vm_compute. reflexivity. Qed.

Lemma student_zero_keys : has_keys four_keys school.student_zero.
Proof. apply has_keys_zero. vm_compute. reflexivity. Qed.

Lemma system_zero_keys : has_keys five_keys school.system_zero.
Proof. apply has_keys_zero. vm_compute. reflexivity. Qed.

Lemma dashboard_zero_keys : has_keys seven_keys super_admin.dashboard_zero.
Proof. apply has_keys_zero. vm_compute. reflexivity. Qed.

(** [_calculate_accurate_bmi_distribution] never takes its [except] branch:
    it returns the tally of the records with a valid BMI. *)
Lemma accurate_distribution_tally (students : list Student) :
  school._calculate_accurate_bmi_distribution students
  = Ok (tally category_keys (List.filter valid_bmi students) school.accurate_zero).
Proof.
  unfold school._calculate_accurate_bmi_distribution.
  destruct students as [|s l]; [reflexivity|].
  rewrite (filterM_pure_all _ valid_bmi) by apply has_valid_bmi_pure.
  change (Ok ?x ≫= ?f) with (f x).
  rewrite (foldM_tally _ category_keys five_keys); [reflexivity| |apply accurate_zero_keys].
  intros d s' Hs' Hd. apply accurate_step_keys; [|exact Hd].
  apply filter_In in Hs' as [_ Hs']. apply valid_bmi_not_null, Hs'.
Qed.

Lemma student_distribution_tally (students : list Student) :
  school._calculate_student_bmi_distribution students
  = Ok (tally student_keys (List.filter valid_bmi students) school.student_zero).
Proof.
  unfold school._calculate_student_bmi_distribution.
  destruct students as [|s l]; [reflexivity|].
  rewrite (filterM_pure_all _ valid_bmi) by apply has_valid_bmi_pure.
  change (Ok ?x ≫= ?f) with (f x).
  rewrite (foldM_tally _ student_keys four_keys); [reflexivity| |apply student_zero_keys].
  intros d s' Hs' Hd. apply student_step_keys; [|exact Hd].
  apply filter_In in Hs' as [_ Hs']. apply valid_bmi_not_null, Hs'.
Qed.

Lemma system_distribution_tally (table : list Student) :
  school._get_super_admin_dashboard_data__bmi_distribution table
  = Ok (tally category_keys (List.filter bmi_not_null table) school.system_zero).
Proof.
  unfold school._get_super_admin_dashboard_data__bmi_distribution.
  rewrite (foldM_tally _ category_keys five_keys); [reflexivity| |apply system_zero_keys].
  intros d s' Hs' Hd. apply accurate_step_keys; [|exact Hd].
  apply filter_In in Hs' as [_ Hs']. exact Hs'.
Qed.

Lemma dashboard_distribution_tally (student_filter : list Student) :
  super_admin.dashboard__bmi_distribution student_filter
  = Ok (tally dashboard_keys (List.filter bmi_not_null student_filter)
              super_admin.dashboard_zero).
Proof.
  unfold super_admin.dashboard__bmi_distribution.
  rewrite (foldM_tally _ dashboard_keys seven_keys); [reflexivity| |apply dashboard_zero_keys].
  intros d s' Hs' Hd. apply dashboard_step_keys; [|exact Hd].
  apply filter_In in Hs' as [_ Hs']. exact Hs'.
Qed.

Lemma filter_filter {A} (p q : A -> bool) (l : list A) :
  List.filter p (List.filter q l) = List.filter (fun x => q x && p x) l.
Proof.
  induction l as [|x l IH]; [reflexivity|]. simpl.
  destruct (q x); simpl; [destruct (p x)|]; rewrite IH; reflexivity.
Qed.

Lemma filter_ext_in_len {A} (p q : A -> bool) (l : list A) :
  (forall x, In x l -> p x = q x) -> List.filter p l = List.filter q l.
Proof.
  induction l as [|x l IH]; intros H; [reflexivity|]. simpl.
  rewrite (H x (or_introl eq_refl)), IH; [reflexivity|].
  intros y Hy. apply H. right. exact Hy.
Qed.

Lemma category_key_in (c c' : BmiCategory) :
  bool_decide (category_key c ∈ [category_key c']) = bool_decide (c = c').
Proof. destruct c, c'; vm_compute; reflexivity. Qed.

Lemma dashboard_keys_category (c : BmiCategory) (s : Student) :
  bool_decide (category_key c ∈ dashboard_keys s)
  = bool_decide (category_key c ∈ category_keys s).
Proof.
  unfold dashboard_keys, category_keys. destruct (bmi s) as [b|]; [|reflexivity].
  destruct (classify b), c; vm_compute; reflexivity.
Qed.

Lemma occurrences_dashboard (c : BmiCategory) (l : list Student) :
  occurrences dashboard_keys (category_key c) l
  = occurrences category_keys (category_key c) l.
Proof.
  unfold occurrences. f_equal. apply filter_ext_in_len.
  intros s _. apply dashboard_keys_category.
Qed.

Lemma occurrences_cons (keys : Student -> list string) (k : string)
    (s : Student) (l : list Student) :
  occurrences keys k (s :: l)
  = (if bool_decide (k ∈ keys s) then 1 else 0) + occurrences keys k l.
Proof.
  unfold occurrences. simpl List.filter.
  destruct (bool_decide (k ∈ keys s)); rewrite ?len_cons; lia.
Qed.

Lemma indicator_category (c c' : BmiCategory) :
  indicator [category_key c'] (category_key c) = if bool_decide (c = c') then 1 else 0.
Proof. unfold indicator. rewrite category_key_in. reflexivity. Qed.

Lemma indicator_partition (s : Student) :
  bmi_not_null s = true ->
  indicator (category_keys s) (category_key SeverelyWasted)
  + indicator (category_keys s) (category_key Wasted)
  + indicator (category_keys s) (category_key Normal)
  + indicator (category_keys s) (category_key Overweight)
  + indicator (category_keys s) (category_key Obese) = 1.
Proof.
  unfold bmi_not_null, category_keys.
  destruct (bmi s) as [b|]; [intros _|discriminate].
  rewrite !indicator_category. destruct (classify b); reflexivity.
Qed.

(** Every record with a BMI falls in exactly one of the five categories. *)
Lemma occurrences_partition (l : list Student) :
  Forall (fun s => bmi_not_null s = true) l ->
  occurrences category_keys (category_key SeverelyWasted) l
  + (occurrences category_keys (category_key Wasted) l
  + (occurrences category_keys (category_key Normal) l
  + (occurrences category_keys (category_key Overweight) l
  + (occurrences category_keys (category_key Obese) l + 0)))) = len l.
Proof.
  induction 1 as [|s l Hs _ IH]; [reflexivity|].
  rewrite len_cons, <- IH, !occurrences_cons.
  pose proof (indicator_partition s Hs) as Hp.
  unfold indicator in Hp. lia.
Qed.

Lemma dict_sum_tally (keys : Student -> list string) (l : list Student)
    (d0 : gmap string Z) :
  (forall s, NoDup (keys s)) ->
  (forall k, In k five_keys -> d0 !! k = Some 0) ->
  dict_sum five_keys (tally keys l d0)
  = occurrences keys (category_key SeverelyWasted) l
  + (occurrences keys (category_key Wasted) l
  + (occurrences keys (category_key Normal) l
  + (occurrences keys (category_key Overweight) l
  + (occurrences keys (category_key Obese) l + 0)))).
Proof.
  intros Hnd H0. unfold dict_sum, five_keys. simpl foldr.
  rewrite !lookup_tally by exact Hnd.
  rewrite !H0 by (simpl; tauto). reflexivity.
Qed.

Lemma zero_lookup (d0 : gmap string Z) (ks : list string) :
  forallb (fun k => bool_decide (d0 !! k = Some 0)) ks = true ->
  forall k, In k ks -> d0 !! k = Some 0.
Proof.
  intros H k Hk. rewrite forallb_forall in H.
  exact (proj1 (bool_decide_eq_true _) (H k Hk)).
Qed.

Lemma count_category_occurrences (c : BmiCategory) (l : list Student) :
  occurrences category_keys (category_key c) (List.filter valid_bmi l)
  = count_category c l.
Proof. unfold occurrences, count_category. rewrite filter_filter. reflexivity. Qed.

Lemma classify_lt_16 (b : Q) : (b < 16)%Q -> classify b = SeverelyWasted.
Proof. intros H. unfold classify. apply Qltb_lt in H. rewrite H. reflexivity. Qed.

Lemma classify_between (b lo hi : Q) (c : BmiCategory) :
  (forall x, Qltb x lo = false -> Qltb x hi = true -> classify x = c) ->
  (lo <= b)%Q -> (b < hi)%Q -> classify b = c.
Proof. intros H Hlo Hhi. apply H; [apply Qltb_ge, Hlo|apply Qltb_lt, Hhi]. Qed.

Lemma Qltb_anti (x a b : Q) : (a <= b)%Q -> Qltb x b = false -> Qltb x a = false.
Proof.
  intros Hab H. apply Qltb_ge. apply Qltb_ge in H.
  eapply Qle_trans; eassumption.
Qed.

(** * The claims *)

(** C1. For every bmi > 0 the classifier follows the half-open thresholds
    with inclusive lower bounds: below 16 SeverelyWasted, from 16 to below
    18.5 Wasted, from 18.5 to below 25 Normal, from 25 to below 30
    Overweight, from 30 on Obese; in particular 16 is Wasted, 25 is
    Overweight and 30 is Obese.  The loop body of the aggregator bumps the
    counter of that category. *)
Theorem classify_thresholds (b : Q) :
  (0 < b)%Q ->
  ((b < 16)%Q -> classify b = SeverelyWasted) /\
  ((16 <= b)%Q -> (b < 37 # 2)%Q -> classify b = Wasted) /\
  ((37 # 2 <= b)%Q -> (b < 25)%Q -> classify b = Normal) /\
  ((25 <= b)%Q -> (b < 30)%Q -> classify b = Overweight) /\
  ((30 <= b)%Q -> classify b = Obese) /\
  classify 16 = Wasted /\ classify 25 = Overweight /\ classify 30 = Obese /\
  (forall d s, bmi s = Some b ->
     school.accurate_step d s = dict_incr (category_key (classify b)) d).
Proof.
  intros _. repeat split.
  - apply classify_lt_16.
  - apply classify_between. intros x H1 H2. unfold classify. rewrite H1, H2.
    reflexivity.
  - apply classify_between. intros x H1 H2. unfold classify.
    rewrite (Qltb_anti x 16 (37 # 2)), H1, H2 by (discriminate || assumption).
    reflexivity.
  - apply classify_between. intros x H1 H2. unfold classify.
    rewrite (Qltb_anti x 16 25), (Qltb_anti x (37 # 2) 25), H1, H2
      by (discriminate || assumption).
    reflexivity.
  - intros H. apply Qltb_ge in H. unfold classify.
    rewrite (Qltb_anti b 16 30), (Qltb_anti b (37 # 2) 30),
      (Qltb_anti b 25 30), H by (discriminate || assumption).
    reflexivity.
  - intros d s Hs. unfold school.accurate_step, classify. rewrite Hs. simpl.
    destruct (Qltb b 16); [reflexivity|]. simpl.
    destruct (Qltb b (37 # 2)); [reflexivity|]. simpl.
    destruct (Qltb b 25); [reflexivity|]. simpl.
    destruct (Qltb b 30); reflexivity.
Qed.

Lemma classify_thresholds_witness :
  (0 < 20)%Q /\ classify 20 = Normal.
Proof.
  split; [reflexivity|].
  apply (classify_thresholds 20); [reflexivity|discriminate|reflexivity].
Defined.

Lemma accurate_zero_lookup (k : string) :
  In k five_keys -> school.accurate_zero !! k = Some 0.
Proof. apply zero_lookup. vm_compute. reflexivity. Qed.

Lemma system_zero_lookup (k : string) :
  In k five_keys -> school.system_zero !! k = Some 0.
Proof. apply zero_lookup. vm_compute. reflexivity. Qed.

Lemma dashboard_zero_lookup (k : string) :
  In k five_keys -> super_admin.dashboard_zero !! k = Some 0.
Proof. apply zero_lookup. vm_compute. reflexivity. Qed.

Lemma student_zero_lookup (k : string) :
  In k four_keys -> school.student_zero !! k = Some 0.
Proof. apply zero_lookup. vm_compute. reflexivity. Qed.

Lemma category_key_five (c : BmiCategory) : In (category_key c) five_keys.
Proof. destruct c; simpl; tauto. Qed.

(** C2, as the code has it.  [_calculate_accurate_bmi_distribution] counts
    exactly the records whose bmi is present and strictly positive: the five
    counts add up to their number, and each count is the number of such
    records of that category.  The two super-admin dashboards select on
    [bmi IS NOT NULL] alone: their five counts add up to the number of
    records with a bmi, whatever its sign. *)
Theorem distribution_total (students : list Student) :
  (exists d, school._calculate_accurate_bmi_distribution students = Ok d /\
     dict_sum five_keys d = len (List.filter valid_bmi students) /\
     forall c, d !! category_key c = Some (count_category c students)) /\
  (exists d, school._get_super_admin_dashboard_data__bmi_distribution students = Ok d /\
     dict_sum five_keys d = len (List.filter bmi_not_null students)) /\
  (exists d, super_admin.dashboard__bmi_distribution students = Ok d /\
     dict_sum five_keys d = len (List.filter bmi_not_null students)).
Proof.
  split; [|split].
  - eexists. split; [apply accurate_distribution_tally|]. split.
    + rewrite dict_sum_tally
        by (apply category_keys_NoDup || apply accurate_zero_lookup).
      apply occurrences_partition, filter_valid_not_null.
    + intros c. rewrite lookup_tally by apply category_keys_NoDup.
      rewrite accurate_zero_lookup by apply category_key_five.
      rewrite count_category_occurrences. reflexivity.
  - eexists. split; [apply system_distribution_tally|].
    rewrite dict_sum_tally
      by (apply category_keys_NoDup || apply system_zero_lookup).
    apply occurrences_partition, filter_not_null.
  - eexists. split; [apply dashboard_distribution_tally|].
    rewrite dict_sum_tally
      by (apply dashboard_keys_NoDup || apply dashboard_zero_lookup).
    rewrite !occurrences_dashboard.
    apply occurrences_partition, filter_not_null.
Qed.

(** C2 as stated fails on the super-admin dashboard of school.py: a record
    whose bmi is 0 is counted as severely wasted, so the counts add up to 1
    although no record has a positive bmi. *)
Lemma distribution_total_counterexample :
  school._get_super_admin_dashboard_data__bmi_distribution
    [student_with_bmi (Some 0%Q)]
  = Ok (<["severely_wasted" := 1]> school.system_zero)
  /\ dict_sum five_keys (<["severely_wasted" := 1]> school.system_zero) = 1
  /\ len (List.filter valid_bmi [student_with_bmi (Some 0%Q)]) = 0.
Proof. vm_compute. repeat split. Qed.

(** C3, as the code has it.  [_calculate_accurate_bmi_distribution] always
    returns a dictionary holding the five category keys, each with a
    non-negative count.  [_calculate_student_bmi_distribution] always returns
    a dictionary holding the four keys severely_wasted, wasted, normal and
    overweight, each with a non-negative count, and no obese key. *)
Theorem distribution_keys (students : list Student) :
  (exists d, school._calculate_accurate_bmi_distribution students = Ok d /\
     forall k, In k five_keys -> exists v, d !! k = Some v /\ 0 <= v) /\
  (exists d, school._calculate_student_bmi_distribution students = Ok d /\
     (forall k, In k four_keys -> exists v, d !! k = Some v /\ 0 <= v) /\
     d !! "obese" = None).
Proof.
  split.
  - eexists. split; [apply accurate_distribution_tally|].
    intros k Hk. rewrite lookup_tally by apply category_keys_NoDup.
    rewrite accurate_zero_lookup by exact Hk.
    eexists. split; [reflexivity|].
    unfold occurrences. pose proof (len_nonneg
      (List.filter (fun s => bool_decide (k ∈ category_keys s))
                   (List.filter valid_bmi students))). lia.
  - eexists. split; [apply student_distribution_tally|]. split.
    + intros k Hk. rewrite lookup_tally by apply student_keys_NoDup.
      rewrite student_zero_lookup by exact Hk.
      eexists. split; [reflexivity|].
      unfold occurrences. pose proof (len_nonneg
        (List.filter (fun s => bool_decide (k ∈ student_keys s))
                     (List.filter valid_bmi students))). lia.
    + rewrite lookup_tally by apply student_keys_NoDup. reflexivity.
Qed.

Lemma distribution_keys_witness :
  exists v,
    tally category_keys
      (List.filter valid_bmi [student_with_bmi (Some 27%Q)]) school.accurate_zero
    !! "overweight" = Some v /\ 0 <= v.
Proof.
  destruct (distribution_keys [student_with_bmi (Some 27%Q)])
    as [(d & Hd & Hk) _].
  rewrite accurate_distribution_tally in Hd. injection Hd as <-.
  apply Hk. simpl. tauto.
Defined.

(** C3 as stated fails on [_calculate_student_bmi_distribution]: not every
    returned summary holds the five keys. *)
Lemma distribution_keys_counterexample :
  ~ (forall students, exists d,
       school._calculate_student_bmi_distribution students = Ok d /\
       forall k, In k five_keys -> is_Some (d !! k)).
Proof.
  intros H. destruct (H []) as (d & Hd & Hk).
  injection Hd as <-. destruct (Hk "obese") as [v Hv]; [simpl; tauto|].
  vm_compute in Hv. discriminate.
Qed.

(** C7. On the empty collection the aggregator returns, without raising,
    the summary whose five counts are 0. *)
Theorem distribution_empty :
  exists d, school._calculate_accurate_bmi_distribution [] = Ok d /\
    (forall c, d !! category_key c = Some 0) /\
    dom d = list_to_set five_keys.
Proof.
  eexists. split; [reflexivity|]. split.
  - intros c. apply accurate_zero_lookup, category_key_five.
  - vm_compute. reflexivity.
Qed.

(** C8. The aggregator returns the same summary on every permutation of its
    input. *)
Theorem distribution_permutation (students students' : list Student) :
  Permutation students students' ->
  school._calculate_accurate_bmi_distribution students
  = school._calculate_accurate_bmi_distribution students'.
Proof.
  intros H. rewrite !accurate_distribution_tally. f_equal.
  apply map_eq. intros k. rewrite !lookup_tally by apply category_keys_NoDup.
  unfold occurrences.
  rewrite (len_Permutation
             (List.filter (fun s => bool_decide (k ∈ category_keys s))
                          (List.filter valid_bmi students))
             (List.filter (fun s => bool_decide (k ∈ category_keys s))
                          (List.filter valid_bmi students'))); [reflexivity|].
  apply filter_Permutation, filter_Permutation, H.
Qed.

Lemma distribution_permutation_witness :
  school._calculate_accurate_bmi_distribution
    [student_with_bmi (Some 15%Q); student_with_bmi None; student_with_bmi (Some 27%Q)]
  = school._calculate_accurate_bmi_distribution
      [student_with_bmi (Some 27%Q); student_with_bmi (Some 15%Q); student_with_bmi None].
Proof.
  apply distribution_permutation.
  apply Permutation_sym, (Permutation_cons_app [_; _] []). reflexivity.
Defined.

Lemma sql_at_risk_spec (s : Student) :
  sql_at_risk s = true <-> outside_normal_range s.
Proof.
  unfold sql_at_risk, outside_normal_range. destruct (bmi s) as [b|].
  - rewrite orb_true_iff, Qltb_lt, Qle_bool_iff. reflexivity.
  - split; [discriminate|contradiction].
Qed.

Lemma severe_spec (s : Student) : severe s = true <-> severely_at_risk s.
Proof.
  unfold severe, severely_at_risk. destruct (bmi s) as [b|].
  - rewrite andb_true_iff, orb_true_iff, !Qltb_lt, Qle_bool_iff. reflexivity.
  - split; [discriminate|contradiction].
Qed.

Lemma number_of_filter {A} (P : A -> Prop) `{forall x, Decision (P x)}
    (p : A -> bool) (l : list A) :
  (forall x, p x = true <-> P x) -> number_of P l = len (List.filter p l).
Proof.
  intros Hp. unfold number_of. f_equal.
  induction l as [|x l IH]; [reflexivity|].
  rewrite filter_cons. simpl. rewrite IH.
  destruct (decide (P x)) as [HP|HP].
  - rewrite (proj2 (Hp x) HP). reflexivity.
  - destruct (p x) eqn:E; [|reflexivity]. exfalso. apply HP, Hp, E.
Qed.

Lemma insert_by_Permutation {A} (le : Q -> Q -> bool) (key : A -> Q)
    (x : A) (l : list A) :
  Permutation (school.insert_by le key x l) (x :: l).
Proof.
  induction l as [|y l IH]; simpl; [reflexivity|].
  destruct (le (key x) (key y)); [reflexivity|].
  rewrite IH. apply perm_swap.
Qed.

Lemma py_sort_Permutation {A} (reverse : bool) (key : A -> Q) (l : list A) :
  Permutation (school.py_sort reverse key l) l.
Proof.
  unfold school.py_sort. induction l as [|x l IH]; simpl; [reflexivity|].
  rewrite insert_by_Permutation. constructor. exact IH.
Qed.

Lemma at_risk_step_pure (acc : list Student) (s : Student) :
  school.at_risk_step acc s = Ok (if severe s then acc ++ [s] else acc).
Proof.
  unfold school.at_risk_step, severe. rewrite has_valid_bmi_pure.
  unfold valid_bmi. destruct (bmi s) as [b|]; [|reflexivity]. simpl.
  destruct (Qltb 0 b); [|reflexivity]. simpl.
  destruct (Qltb b 16); simpl; [reflexivity|].
  destruct (Qle_bool 30 b); reflexivity.
Qed.

Lemma at_risk_loop (l acc : list Student) :
  foldM school.at_risk_step acc l = Ok (acc ++ List.filter severe l).
Proof.
  revert acc. induction l as [|s l IH]; intros acc; simpl.
  - rewrite app_nil_r. reflexivity.
  - rewrite at_risk_step_pure. simpl. rewrite IH.
    destruct (severe s); [rewrite <- app_assoc|]; reflexivity.
Qed.

Lemma at_risk_students_sorted (students : list Student) :
  school._get_at_risk_students students
  = Ok (school.py_sort false school.bmi_or_zero (List.filter severe students)).
Proof.
  unfold school._get_at_risk_students. destruct students as [|s l]; [reflexivity|].
  rewrite at_risk_loop. reflexivity.
Qed.

(** C4, as the code has it.  The super-admin dashboard counts a student as
    at-risk exactly when the bmi is present and below 18.5 or from 25 on, and
    its count is the number of such students.  [_get_at_risk_students], which
    feeds the school dashboard, keeps exactly the students whose bmi is
    present, positive, and below 16 or from 30 on; the length of its result
    is the number of those students. *)
Theorem at_risk_counts (students : list Student) :
  super_admin.dashboard__at_risk_students students
  = number_of outside_normal_range students /\
  exists at_risk,
    school._get_at_risk_students students = Ok at_risk /\
    len at_risk = number_of severely_at_risk students /\
    forall s, In s at_risk <-> In s students /\ severely_at_risk s.
Proof.
  split.
  - unfold super_admin.dashboard__at_risk_students.
    symmetry. apply number_of_filter, sql_at_risk_spec.
  - eexists. split; [apply at_risk_students_sorted|]. split.
    + rewrite (number_of_filter _ severe) by apply severe_spec.
      apply len_Permutation, py_sort_Permutation.
    + intros s. rewrite <- severe_spec, <- filter_In.
      split; apply Permutation_in;
        [|apply Permutation_sym]; apply py_sort_Permutation.
Qed.

Lemma at_risk_counts_witness :
  super_admin.dashboard__at_risk_students sample_students
  = number_of outside_normal_range sample_students.
Proof. exact (proj1 (at_risk_counts sample_students)). Defined.

(** C4 as stated fails on [_get_at_risk_students]: a student whose bmi is
    17 is outside the Normal range and is not returned. *)
Lemma at_risk_counts_counterexample :
  outside_normal_range (student_with_bmi (Some 17%Q)) /\
  school._get_at_risk_students [student_with_bmi (Some 17%Q)] = Ok [].
Proof.
  split; [|reflexivity]. left. reflexivity.
Qed.

Lemma Qeq_bool_inject_pos (z : Z) : 0 < z -> Qeq_bool (inject_Z z) 0 = false.
Proof.
  intros Hz. destruct (Qeq_bool (inject_Z z) 0) eqn:E; [|reflexivity].
  apply Qeq_bool_iff in E. unfold Qeq in E. simpl in E. lia.
Qed.

Lemma py_div_pos (a : Q) (z : Z) :
  0 < z -> py_div a (inject_Z z) = Ok (a / inject_Z z)%Q.
Proof. intros Hz. unfold py_div. rewrite Qeq_bool_inject_pos by exact Hz. reflexivity. Qed.

Lemma len_pos {A} (x : A) (l : list A) : 0 < len (x :: l).
Proof. rewrite len_cons. pose proof (len_nonneg l). lia. Qed.

Lemma foldM_pure {A B} (step : B -> A -> result B) (g : B -> A -> B)
    (l : list A) :
  forall acc, (forall acc x, In x l -> step acc x = Ok (g acc x)) ->
  foldM step acc l = Ok (foldl g acc l).
Proof.
  induction l as [|x l IH]; intros acc H; [reflexivity|].
  simpl. rewrite H by (left; reflexivity). simpl. apply IH.
  intros acc' y Hy. apply H. right. exact Hy.
Qed.

Lemma py_sum_bmi_pure (l : list Student) :
  Forall (fun s => bmi_not_null s = true) l ->
  school.py_sum_bmi l = Ok (bmi_sum l).
Proof.
  intros H. unfold school.py_sum_bmi, bmi_sum. apply foldM_pure.
  intros acc s Hs. rewrite List.Forall_forall in H. specialize (H s Hs).
  unfold bmi_not_null in H. destruct (bmi s); [reflexivity|discriminate].
Qed.

Lemma average_bmi_pure (s : Student) (l : list Student) :
  Forall (fun s => bmi_not_null s = true) (s :: l) ->
  school.average_bmi (s :: l) = Ok (bmi_mean (s :: l)).
Proof.
  intros H. unfold school.average_bmi. rewrite py_sum_bmi_pure by exact H.
  simpl. apply py_div_pos, len_pos.
Qed.

Lemma valid_and_created_in_pure (d : datetime) (s : Student) :
  school.valid_and_created_in d s = Ok (valid_bmi s && school.created_in d s).
Proof.
  unfold school.valid_and_created_in, py_and. rewrite has_valid_bmi_pure.
  simpl. destruct (valid_bmi s); reflexivity.
Qed.

Lemma filter_and_not_null (p : Student -> bool) (l : list Student) :
  Forall (fun s => bmi_not_null s = true)
         (List.filter (fun s => valid_bmi s && p s) l).
Proof.
  apply List.Forall_forall. intros s Hs. apply filter_In in Hs as [_ Hs].
  apply andb_true_iff in Hs as [Hs _]. apply valid_bmi_not_null, Hs.
Qed.

Lemma improved_step_pure (month_date : Z -> datetime) (students : list Student)
    (months : list string) (bmi_values : list Q) (i : Z) :
  school.improved_step month_date students (months, bmi_values) i
  = Ok (school.calendar_month_abbr (month (month_date i)) :: months,
        improved_value (month_date i) students :: bmi_values).
Proof.
  unfold school.improved_step, improved_value, population_mean.
  rewrite (filterM_pure_all (school.valid_and_created_in (month_date i))
             (fun s => valid_bmi s && school.created_in (month_date i) s))
    by apply valid_and_created_in_pure.
  change (Ok ?x ≫= ?f) with (f x).
  pose proof (filter_and_not_null (school.created_in (month_date i)) students) as Hm.
  destruct (List.filter _ students) as [|s l].
  - rewrite (filterM_pure_all _ valid_bmi) by apply has_valid_bmi_pure.
    change (Ok ?x ≫= ?f) with (f x).
    pose proof (filter_valid_not_null students) as Ha.
    destruct (List.filter valid_bmi students) as [|s l]; [reflexivity|].
    rewrite average_bmi_pure by exact Ha. reflexivity.
  - rewrite average_bmi_pure by exact Hm. reflexivity.
Qed.

(** The six values, oldest month first; the [except] branch is never taken. *)
Lemma improved_bmi_progress_pure (month_date : Z -> datetime)
    (students : list Student) :
  school._calculate_improved_bmi_progress month_date students
  = Ok {| school.labels :=
            map (fun i => school.calendar_month_abbr (month (month_date i)))
                [5; 4; 3; 2; 1; 0];
          school.values :=
            map (fun i => improved_value (month_date i) students)
                [5; 4; 3; 2; 1; 0] |}.
Proof.
  unfold school._calculate_improved_bmi_progress.
  cbn [foldM]. rewrite !improved_step_pure.
  repeat (change (Ok ?x ≫= ?f) with (f x); cbv beta; rewrite ?improved_step_pure).
  reflexivity.
Qed.

Lemma is_healthy_pure (s : Student) :
  bmi_not_null s = true -> school.is_healthy s = Ok (healthy s).
Proof.
  unfold bmi_not_null, school.is_healthy, py_between, py_and, healthy.
  destruct (bmi s) as [b|]; [intros _|discriminate]. simpl.
  destruct (Qle_bool (37 # 2) b); reflexivity.
Qed.

Lemma healthy_percent_pure (s : Student) (l : list Student) :
  Forall (fun s => bmi_not_null s = true) (s :: l) ->
  school.healthy_percent (s :: l) = Ok (healthy_share (s :: l)).
Proof.
  intros H. unfold school.healthy_percent, healthy_share.
  rewrite (filterM_pure school.is_healthy healthy).
  - change (Ok ?x ≫= ?f) with (f x). cbv beta.
    rewrite py_div_pos by apply len_pos. reflexivity.
  - eapply Forall_impl; [exact H|]. intros x Hx. apply is_healthy_pure, Hx.
Qed.

Lemma system_average_pure (table : list Student) :
  school.system_average table = Ok (population_share table).
Proof.
  unfold school.system_average, population_share.
  pose proof (filter_not_null table) as H.
  destruct (List.filter bmi_not_null table) as [|s l]; [reflexivity|].
  apply healthy_percent_pure, H.
Qed.

Lemma truthy_not_null (s : Student) : truthy (bmi s) = true -> bmi_not_null s = true.
Proof. unfold truthy, bmi_not_null. destruct (bmi s); [reflexivity|discriminate]. Qed.

Lemma monthly_step_pure (table : list Student) (months_labels : list string)
    (months_data : list Q) (m : Z) :
  school.monthly_step table (months_labels, months_data) m
  = Ok (months_labels ++ [String.substring 0 3 (school.calendar_month_name m)],
        months_data ++ [monthly_value table m]).
Proof.
  unfold school.monthly_step, monthly_value.
  destruct (List.filter (school.month_matches m) table) as [|s l].
  - rewrite system_average_pure. reflexivity.
  - assert (Forall (fun s => bmi_not_null s = true)
              (List.filter (fun s => truthy (bmi s)) (s :: l))) as H.
    { apply List.Forall_forall. intros x Hx. apply filter_In in Hx as [_ Hx].
      apply truthy_not_null, Hx. }
    destruct (List.filter (fun s => truthy (bmi s)) (s :: l)) as [|s' l'].
    + rewrite system_average_pure. reflexivity.
    + rewrite healthy_percent_pure by exact H. reflexivity.
Qed.

(** The twelve values, January first; the [except] branch is never taken. *)
Lemma monthly_progress_trends_pure (table : list Student) :
  school._calculate_monthly_progress_trends table
  = Ok {| school.labels :=
            map (fun m => String.substring 0 3 (school.calendar_month_name m))
                [1; 2; 3; 4; 5; 6; 7; 8; 9; 10; 11; 12];
          school.values :=
            map (monthly_value table) [1; 2; 3; 4; 5; 6; 7; 8; 9; 10; 11; 12] |}.
Proof.
  unfold school._calculate_monthly_progress_trends.
  cbn [foldM]. rewrite !monthly_step_pure.
  repeat (change (Ok ?x ≫= ?f) with (f x); cbv beta; rewrite ?monthly_step_pure).
  reflexivity.
Qed.


(** ** The values of the two trend charts, month by month *)

Lemma improved_progress_value (month_date : Z -> datetime)
    (students : list Student) (i : nat) :
  (i < 6)%nat ->
  exists c,
    school._calculate_improved_bmi_progress month_date students = Ok c /\
    length (school.labels c) = 6%nat /\
    length (school.values c) = 6%nat /\
    school.values c !! (5 - i)%nat
    = Some (improved_value (month_date (Z.of_nat i)) students).
Proof.
  intros Hi. eexists. split; [apply improved_bmi_progress_pure|].
  split; [reflexivity|]. split; [reflexivity|].
  do 6 (destruct i as [|i]; [reflexivity|]). lia.
Qed.







Lemma outside_normal_pure (s : Student) :
  bmi_not_null s = true -> outside_normal (bmi s) = Ok (sql_at_risk s).
Proof.
  unfold bmi_not_null, outside_normal, py_or, sql_at_risk.
  destruct (bmi s) as [b|]; [intros _|discriminate]. simpl.
  destruct (Qltb b (37 # 2)); reflexivity.
Qed.

Lemma needs_feeding_pure (s : Student) :
  school.needs_feeding s = Ok (needs_feeding_b s).
Proof.
  unfold school.needs_feeding, needs_feeding_b, py_and. simpl.
  destruct (truthy (bmi s)) eqn:E; [|reflexivity].
  apply outside_normal_pure, truthy_not_null, E.
Qed.

Lemma improved_beneficiary_pure (s : Student) :
  school.improved_beneficiary s = Ok (improved_b s).
Proof.
  unfold school.improved_beneficiary, improved_b, py_and. simpl.
  destruct (truthy (bmi s)) eqn:E; [|reflexivity].
  rewrite is_healthy_pure by (apply truthy_not_null, E). simpl.
  destruct (healthy s); reflexivity.
Qed.

Lemma guarded_percent (n d : Z) :
  0 <= d ->
  (if 0 <? d
   then q ← py_div (inject_Z n) (inject_Z d); Ok (q * 100)%Q
   else Ok 0%Q)
  = Ok (percent n d).
Proof.
  intros Hd. unfold percent. destruct (0 <? d) eqn:E.
  - apply Z.ltb_lt in E. rewrite py_div_pos by exact E.
    destruct (d =? 0) eqn:E0; [apply Z.eqb_eq in E0; lia|reflexivity].
  - apply Z.ltb_ge in E. replace d with 0 by lia. reflexivity.
Qed.

Lemma school_entry_of_pure (school : school.School) (table : list Student) :
  let students := List.filter (of_school school) table in
  let beneficiaries := len (List.filter marked students) in
  let data_completeness :=
    percent (len (List.filter (fun s => truthy (bmi s)) students)) (len students) in
  let improvement_rate :=
    if len students =? 0 then 0%Q
    else percent (len (List.filter improved_b students)) beneficiaries in
  school.school_entry_of school table
  = Ok {| school.se_name := school.school_name school;
          school.se_students_count := len students;
          school.se_beneficiaries :=
            if len students =? 0 then 0 else beneficiaries;
          school.se_at_risk :=
            if len students =? 0 then 0
            else len (List.filter needs_feeding_b students);
          school.se_performance_score :=
            if len students =? 0 then 0%Q
            else py_round1 ((data_completeness + improvement_rate) / 2)%Q;
          school.se_data_completeness := py_round1 data_completeness;
          school.se_improvement_rate := py_round1 improvement_rate |}.
Proof.
  intros students beneficiaries data_completeness improvement_rate.
  unfold school.school_entry_of.
  change (List.filter _ table) with students.
  subst data_completeness improvement_rate.
  destruct (len students =? 0) eqn:E.
  { unfold percent. rewrite E. reflexivity. }
  rewrite (filterM_pure_all school.needs_feeding needs_feeding_b)
    by apply needs_feeding_pure.
  change (Ok ?x ≫= ?f) with (f x). cbv beta.
  rewrite guarded_percent by apply len_nonneg.
  change (Ok ?x ≫= ?f) with (f x). cbv beta.
  rewrite (filterM_pure_all school.improved_beneficiary improved_b)
    by apply improved_beneficiary_pure.
  change (Ok ?x ≫= ?f) with (f x). cbv beta.
  change (List.filter (fun s => truthy_flag (is_beneficiary s)) students)
    with (List.filter marked students).
  rewrite guarded_percent by apply len_nonneg.
  reflexivity.
Qed.

Lemma filterM_is_healthy_raise (l : list Student) :
  forallb bmi_not_null l = false ->
  filterM school.is_healthy l = Raise TypeError.
Proof.
  induction l as [|s l IH]; [discriminate|]. simpl. intros H.
  destruct (bmi_not_null s) eqn:E.
  - rewrite is_healthy_pure by exact E. simpl. rewrite IH by exact H.
    reflexivity.
  - unfold bmi_not_null in E. unfold school.is_healthy.
    destruct (bmi s); [discriminate|reflexivity].
Qed.

Lemma forallb_not_null (l : list Student) :
  forallb bmi_not_null l = true -> Forall (fun s => bmi_not_null s = true) l.
Proof. intros H. apply List.Forall_forall. apply forallb_forall, H. Qed.

(** The three outcomes of [_calculate_progress_trends]: the empty input,
    a fault in the body (a record without bmi, or the database), and the
    regular case. *)
Lemma progress_trends_cases (count : result Z) (students : list Student) :
  school._calculate_progress_trends count students
  = Ok match students, count with
       | _ :: _, Ok n =>
           if forallb bmi_not_null students then progress_of n students
           else school.progress_zero
       | _, _ => school.progress_zero
       end.
Proof.
  destruct students as [|s l]; [reflexivity|].
  unfold school._calculate_progress_trends.
  destruct (forallb bmi_not_null (s :: l)) eqn:E.
  - apply forallb_not_null in E.
    rewrite (filterM_pure school.is_healthy healthy)
      by (eapply Forall_impl; [exact E|]; intros x Hx; apply is_healthy_pure, Hx).
    change (Ok ?x ≫= ?f) with (f x). cbv beta.
    rewrite py_div_pos by apply len_pos.
    change (Ok ?x ≫= ?f) with (f x). cbv beta.
    rewrite (filterM_pure (fun s => outside_normal (bmi s)) sql_at_risk)
      by (eapply Forall_impl; [exact E|]; intros x Hx; apply outside_normal_pure, Hx).
    change (Ok ?x ≫= ?f) with (f x). cbv beta.
    unfold progress_of, healthy_share.
    change (List.filter (fun s => truthy_flag (is_beneficiary s)))
      with (List.filter marked).
    destruct (List.filter sql_at_risk (s :: l)) as [|a ar].
    + change (Ok ?x ≫= ?f) with (f x). cbv beta.
      destruct count as [n|e]; [|reflexivity].
      change (Ok ?x ≫= ?f) with (f x). cbv beta.
      destruct (0 <? n) eqn:En; [|reflexivity].
      rewrite py_div_pos by (apply Z.ltb_lt, En). reflexivity.
    + rewrite py_div_pos by apply len_pos.
      change (Ok ?x ≫= ?f) with (f x). cbv beta.
      change (Ok ?x ≫= ?f) with (f x). cbv beta.
      destruct count as [n|e]; [|reflexivity].
      change (Ok ?x ≫= ?f) with (f x). cbv beta.
      destruct (0 <? n) eqn:En; [|reflexivity].
      rewrite py_div_pos by (apply Z.ltb_lt, En). reflexivity.
  - rewrite filterM_is_healthy_raise by exact E.
    destruct count; reflexivity.
Qed.


Lemma try_except_total {A} (body : result A) (fallback : A) :
  exists r, try_except body (fun _ => Ok fallback) = Ok r.
Proof. destruct body as [a|e]; simpl; eexists; reflexivity. Qed.

(** The body of [_calculate_progress_trends] does raise on a record without
    bmi; the handler turns the fault into the zero summary. *)
Example progress_body_raises :
  filterM school.is_healthy [student_with_bmi None] = Raise TypeError /\
  school._calculate_progress_trends (Ok 1) [student_with_bmi None]
  = Ok school.progress_zero.
Proof. split; reflexivity. Qed.

(** C9. The three aggregation functions are total: on every input
    collection they return a summary and never raise.  The distribution
    holds the five keys; the empty collection gives the zero summaries; a
    record without bmi, or a failing database count, makes
    [_calculate_progress_trends] return the zero summary. *)
Theorem aggregation_total :
  (forall students : list Student,
     exists d, school._calculate_accurate_bmi_distribution students = Ok d /\
               forall k, In k five_keys -> is_Some (d !! k)) /\
  (forall (count : result Z) (students : list Student),
     exists r, school._calculate_progress_trends count students = Ok r) /\
  (forall students : list Student,
     exists r, school._calculate_health_metrics students = Ok r) /\
  school._calculate_accurate_bmi_distribution [] = Ok school.accurate_zero /\
  (forall count, school._calculate_progress_trends count []
                 = Ok school.progress_zero) /\
  school._calculate_health_metrics [] = Ok school.health_zero /\
  (forall (count : result Z) (students : list Student),
     forallb bmi_not_null students = false ->
     school._calculate_progress_trends count students = Ok school.progress_zero) /\
  (forall (e : PyExc) (students : list Student),
     school._calculate_progress_trends (Raise e) students
     = Ok school.progress_zero).
Proof.
  repeat split.
  - intros students. eexists. split; [apply accurate_distribution_tally|].
    intros k Hk. rewrite lookup_tally by apply category_keys_NoDup.
    rewrite accurate_zero_lookup by exact Hk. eexists. reflexivity.
  - intros count students. apply try_except_total.
  - intros students. apply try_except_total.
  - intros count students H. rewrite progress_trends_cases.
    destruct students as [|s l]; [reflexivity|].
    destruct count; [rewrite H|]; reflexivity.
  - intros e students. rewrite progress_trends_cases.
    destruct students; reflexivity.
Qed.

Lemma aggregation_total_witness :
  school._calculate_progress_trends (Ok 3)
    [student_with_bmi (Some 20%Q); student_with_bmi None]
  = Ok school.progress_zero.
Proof.
  apply (proj1 (proj2 (proj2 (proj2 (proj2 (proj2 (proj2 aggregation_total))))))).
  reflexivity.
Defined.

Lemma needs_feeding_b_spec (s : Student) :
  needs_feeding_b s = true <-> unhealthy_bmi s.
Proof.
  unfold needs_feeding_b, unhealthy_bmi, truthy, sql_at_risk.
  destruct (bmi s) as [b|].
  - rewrite andb_true_iff, negb_true_iff, orb_true_iff, Qltb_lt, Qle_bool_iff.
    split.
    + intros [Hz H]. split; [|exact H]. apply Qeq_bool_neq, Hz.
    + intros [Hz H]. split; [|exact H].
      destruct (Qeq_bool b 0) eqn:E; [|reflexivity].
      exfalso. apply Hz, Qeq_bool_iff, E.
  - split; [discriminate|contradiction].
Qed.

(** C10, as the code has it.  After [edit_student] the flag is true exactly
    when the recomputed bmi is present, not 0, and below 18.5 or from 25 on,
    and false otherwise.  [create_student] sets the flag to true under the
    same condition and otherwise leaves it as it was; the two paths differ on
    a student whose bmi is normal and whose flag is not already false. *)
Theorem beneficiary_flag_paths :
  (forall student : Student,
     exists s',
       school.edit_student__set_flag student = Ok s' /\
       bmi s' = bmi student /\
       (unhealthy_bmi student -> is_beneficiary s' = Some true) /\
       (~ unhealthy_bmi student -> is_beneficiary s' = Some false)) /\
  (forall student : Student,
     exists s',
       school.create_student__set_flag student = Ok s' /\
       bmi s' = bmi student /\
       (unhealthy_bmi student -> is_beneficiary s' = Some true) /\
       (~ unhealthy_bmi student -> is_beneficiary s' = is_beneficiary student)) /\
  (forall student : Student,
     ~ unhealthy_bmi student ->
     is_beneficiary student <> Some false ->
     forall s1 s2,
       school.edit_student__set_flag student = Ok s1 ->
       school.create_student__set_flag student = Ok s2 ->
       is_beneficiary s1 <> is_beneficiary s2).
Proof.
  assert (forall s, unhealthy_bmi s -> needs_feeding_b s = true) as Hyes
    by (intros s; apply needs_feeding_b_spec).
  assert (forall s, ~ unhealthy_bmi s -> needs_feeding_b s = false) as Hno.
  { intros s H. destruct (needs_feeding_b s) eqn:E; [|reflexivity].
    exfalso. apply H, needs_feeding_b_spec, E. }
  split; [|split].
  - intros student. unfold school.edit_student__set_flag.
    rewrite needs_feeding_pure. simpl.
    destruct (needs_feeding_b student) eqn:E; eexists;
      (split; [reflexivity|]); (split; [reflexivity|]); split; intros H;
      try reflexivity.
    + apply Hno in H. congruence.
    + apply Hyes in H. congruence.
  - intros student. unfold school.create_student__set_flag.
    rewrite needs_feeding_pure. simpl.
    destruct (needs_feeding_b student) eqn:E; eexists;
      (split; [reflexivity|]); (split; [reflexivity|]); split; intros H;
      try reflexivity.
    + apply Hno in H. congruence.
    + apply Hyes in H. congruence.
  - intros student Hn Hflag s1 s2.
    unfold school.edit_student__set_flag, school.create_student__set_flag.
    rewrite needs_feeding_pure, (Hno _ Hn). simpl.
    intros [= <-] [= <-]. simpl. congruence.
Qed.

Lemma normal_unflagged_healthy : ~ unhealthy_bmi normal_unflagged.
Proof.
  intros [_ [H|H]]; vm_compute in H; [discriminate|apply H; reflexivity].
Defined.

Lemma beneficiary_flag_paths_witness :
  is_beneficiary (school.set_is_beneficiary (Some false) normal_unflagged)
  <> is_beneficiary normal_unflagged.
Proof.
  apply (proj2 (proj2 beneficiary_flag_paths) normal_unflagged
           normal_unflagged_healthy).
  - discriminate.
  - reflexivity.
  - reflexivity.
Defined.

(** C10 as stated fails on [edit_student]: a recomputed bmi of 0 is present
    and below 18.5, yet the flag is set to false. *)
Lemma beneficiary_flag_paths_counterexample :
  outside_normal_range (student_with_bmi (Some 0%Q)) /\
  school.edit_student__set_flag (student_with_bmi (Some 0%Q))
  = Ok (school.set_is_beneficiary (Some false) (student_with_bmi (Some 0%Q))).
Proof.
  split; [|reflexivity]. left. reflexivity.
Qed.

(** * The scenarios of the specification, run on the code *)

(** Five students with bmi 15, 17, 20, 27 and 32: one in each category. *)
Example scenario_one_of_each :
  (fun d => map (fun k => d !! k) five_keys)
    <$> match school._calculate_accurate_bmi_distribution
                (map (fun b => student_with_bmi (Some b)) [15; 17; 20; 27; 32]%Q)
        with Ok d => Some d | Raise _ => None end
  = Some [Some 1; Some 1; Some 1; Some 1; Some 1].
Proof. vm_compute. reflexivity. Qed.

(** Two students without bmi: every count is 0. *)
Example scenario_no_bmi :
  school._calculate_accurate_bmi_distribution
    [student_with_bmi None; student_with_bmi None]
  = Ok school.accurate_zero.
Proof. vm_compute. reflexivity. Qed.

(** Ten students, four of them beneficiaries: a rate of 40 percent. *)
Example scenario_forty_percent :
  exists rate,
    super_admin.dashboard__beneficiary_coverage
      (replicate 4 (student_created None (Some true) (sample_clock 0))
       ++ replicate 6 (student_created None (Some false) (sample_clock 0)))
    = Ok rate /\ (rate == 40)%Q.
Proof. eexists. split; [vm_compute; reflexivity|reflexivity]. Qed.

(** * Further properties of the analytics helpers *)

(** ** [list.sort] *)

(** The order that [sort(key=..., reverse=...)] establishes on the keys. *)
Lemma insert_by_sorted {A} (reverse : bool) (key : A -> Q) (x : A) (l : list A) :
  let le := if reverse then (fun a b => Qle_bool b a) else Qle_bool in
  StronglySorted (fun a b => le (key a) (key b) = true) l ->
  StronglySorted (fun a b => le (key a) (key b) = true)
                 (school.insert_by le key x l).
Proof.
  intros le. induction 1 as [|y l Hl IH Hy]; simpl.
  - constructor; constructor.
  - destruct (le (key x) (key y)) eqn:E.
    + constructor; [constructor; assumption|].
      constructor; [exact E|].
      eapply Forall_impl; [exact Hy|]. intros z Hz. simpl in Hz.
      subst le. destruct reverse; simpl in *;
        apply Qle_bool_iff; apply Qle_bool_iff in E; apply Qle_bool_iff in Hz;
        eapply Qle_trans; eassumption.
    + constructor; [exact IH|].
      assert (le (key y) (key x) = true) as Hyx.
      { subst le. destruct reverse; simpl in *; apply Qle_bool_iff;
          apply Qlt_le_weak, Qnot_le_lt; intros H;
          apply Qle_bool_iff in H; congruence. }
      rewrite (insert_by_Permutation le key x l). constructor; assumption.
Qed.

Lemma py_sort_sorted {A} (reverse : bool) (key : A -> Q) (l : list A) :
  StronglySorted
    (fun a b => (if reverse then Qle_bool (key b) (key a)
                 else Qle_bool (key a) (key b)) = true)
    (school.py_sort reverse key l).
Proof.
  unfold school.py_sort. induction l as [|x l IH]; simpl; [constructor|].
  pose proof (insert_by_sorted reverse key x
                (foldr (school.insert_by
                          (if reverse then fun a b => Qle_bool b a else Qle_bool) key)
                       [] l)) as H.
  destruct reverse; simpl in *; apply H, IH.
Qed.

(** Sorting is stable: the records of any one key keep their order. *)
Lemma insert_by_stable {A} (reverse : bool) (key : A -> Q) (k : Q) (x : A)
    (l : list A) :
  let le := if reverse then (fun a b => Qle_bool b a) else Qle_bool in
  List.filter (fun y => Qeq_bool (key y) k) (school.insert_by le key x l)
  = List.filter (fun y => Qeq_bool (key y) k) (x :: l).
Proof.
  intros le. induction l as [|y l IH]; [reflexivity|].
  simpl school.insert_by. destruct (le (key x) (key y)) eqn:E; [reflexivity|].
  simpl List.filter in *. rewrite IH.
  destruct (Qeq_bool (key x) k) eqn:Ex; [|reflexivity].
  destruct (Qeq_bool (key y) k) eqn:Ey; [|reflexivity].
  exfalso. apply Qeq_bool_iff in Ex, Ey.
  assert (le (key x) (key y) = true) as Hle; [|congruence].
  subst le. destruct reverse; apply Qle_bool_iff; rewrite Ex, Ey; apply Qle_refl.
Qed.

Lemma py_sort_stable {A} (reverse : bool) (key : A -> Q) (k : Q) (l : list A) :
  List.filter (fun y => Qeq_bool (key y) k) (school.py_sort reverse key l)
  = List.filter (fun y => Qeq_bool (key y) k) l.
Proof.
  unfold school.py_sort. induction l as [|x l IH]; [reflexivity|].
  simpl foldr. rewrite (insert_by_stable reverse key k x).
  simpl. rewrite IH. reflexivity.
Qed.

Lemma StronglySorted_weaken {A} (R S : A -> A -> Prop) (l : list A) :
  (forall a b, R a b -> S a b) -> StronglySorted R l -> StronglySorted S l.
Proof.
  intros HRS. induction 1 as [|x l _ IH Hx]; constructor; [exact IH|].
  eapply Forall_impl; [exact Hx|]. intros y. apply HRS.
Qed.

(** X1. [_get_at_risk_students] returns its students in non-decreasing
    order of bmi, the most underweight first, and students of equal bmi in
    the order of the input. *)
Theorem at_risk_students_order (students : list Student) :
  exists at_risk,
    school._get_at_risk_students students = Ok at_risk /\
    StronglySorted
      (fun a b => (school.bmi_or_zero a <= school.bmi_or_zero b)%Q) at_risk /\
    forall k,
      List.filter (fun s => Qeq_bool (school.bmi_or_zero s) k) at_risk
      = List.filter (fun s => Qeq_bool (school.bmi_or_zero s) k)
                    (List.filter severe students).
Proof.
  eexists. split; [apply at_risk_students_sorted|]. split.
  - pose proof (py_sort_sorted false school.bmi_or_zero
                  (List.filter severe students)) as H. simpl in H.
    eapply StronglySorted_weaken; [|exact H].
    intros a b Hab. apply Qle_bool_iff, Hab.
  - intros k. apply py_sort_stable.
Qed.

(** ** Rounding *)

Lemma py_round1_eq (x : Q) : py_round 1 x = py_round1 x.
Proof. reflexivity. Qed.

Lemma scale_pos (n : nat) : (0 < inject_Z (10 ^ Z.of_nat n))%Q.
Proof.
  change 0%Q with (inject_Z 0). rewrite <- Zlt_Qlt.
  apply Z.pow_pos_nonneg; lia.
Qed.

(** The integer that [round] picks is the floor or the floor plus one, and
    the floor plus one only from the half on. *)
Lemma py_round_cases (n : nat) (x : Q) :
  let scale := inject_Z (10 ^ Z.of_nat n) in
  let f := Qfloor (x * scale) in
  (py_round n x = inject_Z f / scale /\ (x * scale - inject_Z f <= 1 # 2))%Q \/
  (py_round n x = inject_Z (f + 1) / scale /\ (1 # 2 <= x * scale - inject_Z f))%Q.
Proof.
  intros scale f. unfold py_round. fold scale. fold f.
  destruct (x * scale - inject_Z f ?= 1 # 2)%Q eqn:E.
  - apply Qeq_alt in E. destruct (Z.odd f).
    + right. split; [reflexivity|]. rewrite E. apply Qle_refl.
    + left. split; [reflexivity|]. rewrite E. apply Qle_refl.
  - left. split; [reflexivity|]. apply Qlt_le_weak, Qlt_alt, E.
  - right. split; [reflexivity|]. apply Qlt_le_weak, Qgt_alt, E.
Qed.

Lemma py_round_lower (n : nat) (x : Q) (a : Z) :
  (inject_Z a <= x * inject_Z (10 ^ Z.of_nat n))%Q ->
  (inject_Z a / inject_Z (10 ^ Z.of_nat n) <= py_round n x)%Q.
Proof.
  intros Ha. pose proof (scale_pos n) as Hs.
  assert (a <= Qfloor (x * inject_Z (10 ^ Z.of_nat n))) as Hf.
  { rewrite <- (Qfloor_Z a). apply Qfloor_resp_le, Ha. }
  destruct (py_round_cases n x) as [[-> _]|[-> _]];
    apply Qmult_le_compat_r; try (apply Qlt_le_weak, Qinv_lt_0_compat, Hs);
    rewrite <- Zle_Qle; lia.
Qed.

Lemma py_round_upper (n : nat) (x : Q) (b : Z) :
  (x * inject_Z (10 ^ Z.of_nat n) <= inject_Z b)%Q ->
  (py_round n x <= inject_Z b / inject_Z (10 ^ Z.of_nat n))%Q.
Proof.
  intros Hb. pose proof (scale_pos n) as Hs.
  pose proof (Qfloor_le (x * inject_Z (10 ^ Z.of_nat n))) as Hfl.
  destruct (py_round_cases n x) as [[-> _]|[-> Hhalf]];
    apply Qmult_le_compat_r; try (apply Qlt_le_weak, Qinv_lt_0_compat, Hs).
  - eapply Qle_trans; eassumption.
  - rewrite <- Zle_Qle.
    assert (Qfloor (x * inject_Z (10 ^ Z.of_nat n)) < b); [|lia].
    rewrite Zlt_Qlt. lra.
Qed.

(** Rounding keeps a percentage a percentage. *)
Lemma py_round_percentage (n : nat) (x : Q) :
  is_percentage x -> is_percentage (py_round n x).
Proof.
  intros [H0 H100]. pose proof (scale_pos n) as Hs. split.
  - assert (0 == inject_Z 0 / inject_Z (10 ^ Z.of_nat n))%Q as -> by reflexivity.
    apply py_round_lower. change (inject_Z 0) with 0%Q.
    apply Qmult_le_0_compat; [exact H0|apply Qlt_le_weak, Hs].
  - assert (100 == inject_Z (100 * 10 ^ Z.of_nat n) / inject_Z (10 ^ Z.of_nat n))%Q
      as ->.
    { rewrite inject_Z_mult. field. intros H. rewrite H in Hs.
      apply (Qlt_irrefl 0), Hs. }
    apply py_round_upper. rewrite inject_Z_mult.
    apply Qmult_le_compat_r; [exact H100|apply Qlt_le_weak, Hs].
Qed.

Lemma py_round1_percentage (x : Q) : is_percentage x -> is_percentage (py_round1 x).
Proof. apply (py_round_percentage 1). Qed.

Lemma percent_percentage (n d : Z) : 0 <= n <= d -> is_percentage (percent n d).
Proof.
  intros [Hn Hd]. unfold percent, is_percentage.
  destruct (d =? 0) eqn:E; [split; discriminate|].
  apply Z.eqb_neq in E. assert (0 < d) as Hpos by lia.
  assert (0 < inject_Z d)%Q as HQ.
  { change 0%Q with (inject_Z 0). rewrite <- Zlt_Qlt. exact Hpos. }
  assert (0 <= inject_Z n / inject_Z d <= 1)%Q as [Hlo Hhi].
  { split.
    - apply Qle_shift_div_l; [exact HQ|]. rewrite Qmult_0_l.
      change 0%Q with (inject_Z 0). rewrite <- Zle_Qle. exact Hn.
    - apply Qle_shift_div_r; [exact HQ|]. rewrite Qmult_1_l.
      rewrite <- Zle_Qle. exact Hd. }
  split; lra.
Qed.

Lemma filter_len_le {A} (p q : A -> bool) (l : list A) :
  (forall x, p x = true -> q x = true) ->
  len (List.filter p l) <= len (List.filter q l).
Proof.
  intros Hpq. induction l as [|x l IH]; [reflexivity|]. simpl.
  destruct (p x) eqn:Ep.
  - rewrite (Hpq x Ep), !len_cons. lia.
  - destruct (q x); rewrite ?len_cons; lia.
Qed.

Lemma filter_len_bound {A} (p : A -> bool) (l : list A) :
  0 <= len (List.filter p l) <= len l.
Proof.
  split; [apply len_nonneg|].
  induction l as [|x l IH]; [reflexivity|]. simpl.
  destruct (p x); rewrite !len_cons; lia.
Qed.

(** ** Rounding and percentages at their end points *)

Lemma py_round_integer (n : nat) (x : Q) (k : Z) :
  (x == inject_Z k)%Q -> (py_round n x == inject_Z k)%Q.
Proof.
  intros Hx. pose proof (scale_pos n) as Hs.
  assert (inject_Z k
          == inject_Z (k * 10 ^ Z.of_nat n) / inject_Z (10 ^ Z.of_nat n))%Q as Hk.
  { rewrite inject_Z_mult. field. intros H. rewrite H in Hs.
    apply (Qlt_irrefl 0), Hs. }
  apply Qle_antisym.
  - rewrite Hk. apply py_round_upper. rewrite Hx, inject_Z_mult. apply Qle_refl.
  - rewrite Hk. apply py_round_lower. rewrite Hx, inject_Z_mult. apply Qle_refl.
Qed.

Lemma py_round1_integer (x : Q) (k : Z) :
  (x == inject_Z k)%Q -> (py_round1 x == inject_Z k)%Q.
Proof. rewrite <- py_round1_eq. apply py_round_integer. Qed.

Lemma inject_Z_pos (d : Z) : 0 < d -> (0 < inject_Z d)%Q.
Proof. intros H. change 0%Q with (inject_Z 0). rewrite <- Zlt_Qlt. exact H. Qed.

Lemma percent_none (d : Z) : (percent 0 d == 0)%Q.
Proof.
  unfold percent. destruct (d =? 0); [reflexivity|].
  unfold Qdiv. rewrite !Qmult_0_l. reflexivity.
Qed.

Lemma percent_all (n : Z) : 0 < n -> (percent n n == 100)%Q.
Proof.
  intros Hn. unfold percent.
  destruct (n =? 0) eqn:E; [apply Z.eqb_eq in E; lia|].
  pose proof (inject_Z_pos n Hn) as HQ.
  field. intros H. rewrite H in HQ. apply (Qlt_irrefl 0), HQ.
Qed.


Lemma len_zero_nil {A} (l : list A) : len l = 0 -> l = [].
Proof. destruct l; [reflexivity|]. rewrite len_cons. pose proof (len_nonneg l). lia. Qed.

(** ** [_calculate_school_performance] and [_get_top_performing_schools] *)

Lemma school_entry_of_value (table : list Student) (school : school.School) :
  school.school_entry_of school table = Ok (school_entry_value table school).
Proof. exact (school_entry_of_pure school table). Qed.

Lemma foldl_snoc_map {A B} (f : A -> B) (l : list A) (acc : list B) :
  foldl (fun acc x => acc ++ [f x]) acc l = acc ++ map f l.
Proof.
  revert acc. induction l as [|x l IH]; intros acc; simpl.
  - rewrite app_nil_r. reflexivity.
  - rewrite IH, <- app_assoc. reflexivity.
Qed.

Lemma school_performance_pure (schools : list school.School)
    (table : list Student) :
  school._calculate_school_performance schools table
  = Ok (school.py_sort true school.se_performance_score
          (map (school_entry_value table) schools)).
Proof.
  unfold school._calculate_school_performance.
  rewrite (foldM_pure _ (fun acc sch => acc ++ [school_entry_value table sch])).
  - rewrite foldl_snoc_map. reflexivity.
  - intros acc sch _. rewrite school_entry_of_value. reflexivity.
Qed.

Lemma school_performance_sorted (schools : list school.School)
    (table : list Student) :
  exists performance,
    school._calculate_school_performance schools table = Ok performance /\
    length performance = length schools /\
    StronglySorted
      (fun a b => (school.se_performance_score b <= school.se_performance_score a)%Q)
      performance.
Proof.
  eexists. split; [apply school_performance_pure|]. split.
  - rewrite (Permutation_length (py_sort_Permutation _ _ _)).
    apply length_map.
  - pose proof (py_sort_sorted true school.se_performance_score
                  (map (school_entry_value table) schools)) as H. simpl in H.
    eapply StronglySorted_weaken; [|exact H].
    intros a b Hab. apply Qle_bool_iff, Hab.
Qed.

Lemma entry_counts_value (table : list Student) (school : school.School) :
  entry_counts (school_entry_value table school) = school_counts table school.
Proof.
  unfold entry_counts, school_entry_value, school_counts. cbv zeta.
  cbn [school.se_name school.se_students_count school.se_beneficiaries
       school.se_at_risk].
  destruct (len (List.filter (of_school school) table) =? 0) eqn:E;
    [|reflexivity].
  apply Z.eqb_eq, len_zero_nil in E. rewrite E. reflexivity.
Qed.

(** X2. [_calculate_school_performance] never raises and returns exactly one
    entry per registered school, schools without students included: the
    names with the numbers of students, of beneficiaries and of at-risk
    students are those of the schools, and the entries are ordered by
    performance score from the highest to the lowest. *)
Theorem school_performance_ranking (schools : list school.School)
    (table : list Student) :
  exists performance,
    school._calculate_school_performance schools table = Ok performance /\
    Permutation (map entry_counts performance)
                (map (school_counts table) schools) /\
    length performance = length schools /\
    StronglySorted
      (fun a b => (school.se_performance_score b <= school.se_performance_score a)%Q)
      performance.
Proof.
  destruct (school_performance_sorted schools table)
    as (performance & Hperf & Hlen & Hsorted).
  exists performance. split; [exact Hperf|]. split; [|split; assumption].
  rewrite school_performance_pure in Hperf. injection Hperf as <-.
  rewrite (Permutation_map entry_counts (py_sort_Permutation _ _ _)).
  rewrite map_map.
  rewrite (map_ext _ _ (entry_counts_value table)). reflexivity.
Qed.

Lemma improved_b_marked (s : Student) : improved_b s = true -> marked s = true.
Proof.
  unfold improved_b, marked. intros H.
  apply andb_true_iff in H as [_ H]. apply andb_true_iff in H as [_ H]. exact H.
Qed.

Lemma school_entry_value_bounds (table : list Student) (school : school.School) :
  let e := school_entry_value table school in
  is_percentage (school.se_data_completeness e) /\
  is_percentage (school.se_improvement_rate e) /\
  is_percentage (school.se_performance_score e) /\
  0 <= school.se_beneficiaries e <= school.se_students_count e /\
  0 <= school.se_at_risk e <= school.se_students_count e.
Proof.
  unfold school_entry_value. cbv zeta.
  set (students := List.filter (of_school school) table).
  cbn [school.se_data_completeness school.se_improvement_rate
       school.se_performance_score school.se_beneficiaries
       school.se_at_risk school.se_students_count].
  assert (is_percentage
            (percent (len (List.filter (fun s => truthy (bmi s)) students))
                     (len students))) as Hdc
    by apply percent_percentage, filter_len_bound.
  assert (is_percentage
            (percent (len (List.filter improved_b students))
                     (len (List.filter marked students)))) as Hir.
  { apply percent_percentage. split; [apply len_nonneg|].
    apply filter_len_le, improved_b_marked. }
  assert (is_percentage 0) as H0 by (split; discriminate).
  pose proof (filter_len_bound marked students) as Hb.
  pose proof (filter_len_bound needs_feeding_b students) as Ha.
  pose proof (len_nonneg students) as Hn.
  destruct (len students =? 0) eqn:E.
  - split; [apply py_round1_percentage, Hdc|].
    split; [apply py_round1_percentage, H0|].
    split; [exact H0|]. lia.
  - split; [apply py_round1_percentage, Hdc|].
    split; [apply py_round1_percentage, Hir|].
    split; [|lia].
    apply py_round1_percentage. destruct Hdc, Hir.
    unfold Qdiv. change (/ 2)%Q with (1 # 2)%Q. split; lra.
Qed.

(** X3. Every entry of [_calculate_school_performance] has its data
    completeness, improvement rate and performance score between 0 and 100,
    and its numbers of beneficiaries and of at-risk students between 0 and
    the number of students of the school. *)
Theorem school_performance_bounds (schools : list school.School)
    (table : list Student) :
  exists performance,
    school._calculate_school_performance schools table = Ok performance /\
    Forall (fun e =>
              is_percentage (school.se_data_completeness e) /\
              is_percentage (school.se_improvement_rate e) /\
              is_percentage (school.se_performance_score e) /\
              0 <= school.se_beneficiaries e <= school.se_students_count e /\
              0 <= school.se_at_risk e <= school.se_students_count e)
           performance.
Proof.
  eexists. split; [apply school_performance_pure|].
  apply List.Forall_forall. intros e He.
  apply (Permutation_in _ (py_sort_Permutation _ _ _)) in He.
  apply in_map_iff in He as (sch & <- & _).
  apply school_entry_value_bounds.
Qed.

Lemma StronglySorted_firstn_skipn {A} (R : A -> A -> Prop) (n : nat) (l : list A) :
  StronglySorted R l ->
  forall a b, In a (firstn n l) -> In b (skipn n l) -> R a b.
Proof.
  intros H. revert n. induction H as [|x l Hl IH Hx]; intros n a b Ha Hb.
  - destruct n; simpl in Ha; contradiction.
  - destruct n as [|n]; [simpl in Ha; contradiction|].
    simpl in Ha, Hb. destruct Ha as [<-|Ha].
    + rewrite List.Forall_forall in Hx. apply Hx.
      rewrite <- (firstn_skipn n l). apply in_or_app. right. exact Hb.
    + eapply IH; eassumption.
Qed.

(** X4. [_get_top_performing_schools] returns the first three entries of the
    ranking (all of them when there are fewer): at most three schools, and no
    school left out has a higher performance score than a school returned. *)
Theorem top_performing_schools_best (schools : list school.School)
    (table : list Student) :
  exists performance top_schools,
    school._calculate_school_performance schools table = Ok performance /\
    school._get_top_performing_schools schools table = Ok top_schools /\
    top_schools = map top_school_of (firstn 3 performance) /\
    length top_schools = Nat.min 3 (length schools) /\
    forall t e,
      In t top_schools -> In e (skipn 3 performance) ->
      (school.se_performance_score e <= school.ts_performance_score t)%Q.
Proof.
  destruct (school_performance_sorted schools table)
    as (performance & Hperf & Hlen & Hsorted).
  exists performance, (map top_school_of (firstn 3 performance)).
  split; [exact Hperf|]. split; [|split; [reflexivity|split]].
  - unfold school._get_top_performing_schools. rewrite Hperf.
    change (Ok ?x ≫= ?f) with (f x). cbv beta.
    rewrite (foldM_pure _ (fun acc e => acc ++ [top_school_of e]))
      by (intros; reflexivity).
    rewrite foldl_snoc_map. reflexivity.
  - rewrite length_map, length_firstn, Hlen. reflexivity.
  - intros t e Ht He. apply in_map_iff in Ht as (a & <- & Ha).
    exact (StronglySorted_firstn_skipn _ 3 performance Hsorted a e Ha He).
Qed.

(** ** The guards of the rates *)



(** ** [_calculate_health_metrics] *)

Lemma filterM_valid_and (p : Student -> result bool) (q : Student -> bool)
    (l : list Student) :
  (forall s, bmi_not_null s = true -> p s = Ok (q s)) ->
  filterM (fun s => py_and (school.has_valid_bmi s) (p s)) l
  = Ok (List.filter (fun s => valid_bmi s && q s) l).
Proof.
  intros Hp. apply filterM_pure_all. intros s.
  unfold py_and. rewrite has_valid_bmi_pure. simpl.
  destruct (valid_bmi s) eqn:E; [|reflexivity]. simpl.
  apply Hp, valid_bmi_not_null, E.
Qed.

Lemma mild_pure (s : Student) :
  bmi_not_null s = true ->
  py_or (py_between 16 (bmi s) (37 # 2)) (py_between 25 (bmi s) 30) = Ok (mild s).
Proof.
  unfold bmi_not_null, mild, py_or, py_between, py_and.
  destruct (bmi s) as [b|]; [intros _|discriminate]. simpl.
  destruct (Qle_bool 16 b); simpl.
  - destruct (Qltb b (37 # 2)); simpl; [reflexivity|].
    destruct (Qle_bool 25 b); reflexivity.
  - destruct (Qle_bool 25 b); reflexivity.
Qed.

Lemma declined_pure (s : Student) :
  bmi_not_null s = true ->
  py_or (py_lt (bmi s) 16) (py_ge (bmi s) 30)
  = Ok (match bmi s with
        | Some b => Qltb b 16 || Qle_bool 30 b
        | None => false
        end).
Proof.
  unfold bmi_not_null, py_or.
  destruct (bmi s) as [b|]; [intros _|discriminate]. simpl.
  destruct (Qltb b 16); reflexivity.
Qed.

Lemma valid_declined_severe (s : Student) :
  valid_bmi s && match bmi s with
                 | Some b => Qltb b 16 || Qle_bool 30 b
                 | None => false
                 end
  = severe s.
Proof. unfold valid_bmi, severe. destruct (bmi s); reflexivity. Qed.

Lemma Qle_bool_mono (a b x : Q) :
  (a <= b)%Q -> Qle_bool b x = true -> Qle_bool a x = true.
Proof.
  intros Hab H. apply Qle_bool_iff. apply Qle_bool_iff in H.
  eapply Qle_trans; eassumption.
Qed.

(** A valid BMI is healthy, mild or severe, and only one of them. *)
Lemma health_partition (s : Student) :
  (if valid_bmi s && healthy s then 1 else 0)
  + (if valid_bmi s && mild s then 1 else 0)
  + (if severe s then 1 else 0)
  = if valid_bmi s then 1 else 0.
Proof.
  unfold valid_bmi, healthy, mild, severe, Qltb.
  destruct (bmi s) as [b|]; [|reflexivity].
  destruct (Qle_bool b 0); [reflexivity|]. simpl.
  assert (Qle_bool (37 # 2) b = true -> Qle_bool 16 b = true) as H1
    by (apply Qle_bool_mono; discriminate).
  assert (Qle_bool 25 b = true -> Qle_bool (37 # 2) b = true) as H2
    by (apply Qle_bool_mono; discriminate).
  assert (Qle_bool 30 b = true -> Qle_bool 25 b = true) as H3
    by (apply Qle_bool_mono; discriminate).
  destruct (Qle_bool 16 b) eqn:E1, (Qle_bool (37 # 2) b) eqn:E2,
           (Qle_bool 25 b) eqn:E3, (Qle_bool 30 b) eqn:E4;
    simpl; try reflexivity; exfalso;
    try specialize (H1 eq_refl); try specialize (H2 eq_refl);
    try specialize (H3 eq_refl); congruence.
Qed.

Lemma len_filter_cons {A} (p : A -> bool) (x : A) (l : list A) :
  len (List.filter p (x :: l)) = (if p x then 1 else 0) + len (List.filter p l).
Proof. simpl. destruct (p x); rewrite ?len_cons; lia. Qed.

Lemma health_counts_partition (l : list Student) :
  len (List.filter (fun s => valid_bmi s && healthy s) l)
  + len (List.filter (fun s => valid_bmi s && mild s) l)
  + len (List.filter severe l)
  = len (List.filter valid_bmi l).
Proof.
  induction l as [|s l IH]; [reflexivity|].
  rewrite !len_filter_cons. pose proof (health_partition s). lia.
Qed.

(** X5. [_calculate_health_metrics] never raises.  Its improved, stable and
    declined counts partition the beneficiaries with a valid BMI: they add
    up to the number of students whose bmi is present and positive, and a
    student without valid BMI is in none of them.  The improvement rate is
    between 0 and 100: 0 when no student improved, 100 when every student
    passed in did. *)
Theorem health_metrics_partition (beneficiary_students : list Student) :
  exists m,
    school._calculate_health_metrics beneficiary_students = Ok m /\
    school.hm_improved_count m
    = len (List.filter (fun s => valid_bmi s && healthy s) beneficiary_students) /\
    school.hm_stable_count m
    = len (List.filter (fun s => valid_bmi s && mild s) beneficiary_students) /\
    school.hm_declined_count m = len (List.filter severe beneficiary_students) /\
    school.hm_improved_count m + school.hm_stable_count m
      + school.hm_declined_count m
    = len (List.filter valid_bmi beneficiary_students) /\
    is_percentage (school.hm_improvement_rate m) /\
    (school.hm_improved_count m = 0 -> (school.hm_improvement_rate m == 0)%Q) /\
    (beneficiary_students <> [] ->
     school.hm_improved_count m = len beneficiary_students ->
     (school.hm_improvement_rate m == 100)%Q).
Proof.
  destruct beneficiary_students as [|s l].
  { eexists. split; [reflexivity|].
    split; [reflexivity|]. split; [reflexivity|]. split; [reflexivity|].
    split; [reflexivity|]. split; [split; discriminate|].
    split; [reflexivity|]. intros H. contradiction. }
  unfold school._calculate_health_metrics.
  rewrite (filterM_valid_and school.is_healthy healthy) by apply is_healthy_pure.
  change (Ok ?x ≫= ?f) with (f x). cbv beta.
  rewrite (filterM_valid_and
             (fun s => py_or (py_between 16 (bmi s) (37 # 2))
                             (py_between 25 (bmi s) 30)) mild)
    by apply mild_pure.
  change (Ok ?x ≫= ?f) with (f x). cbv beta.
  rewrite (filterM_valid_and
             (fun s => py_or (py_lt (bmi s) 16) (py_ge (bmi s) 30)) _ _
             declined_pure).
  change (Ok ?x ≫= ?f) with (f x). cbv beta.
  rewrite (filter_ext_in_len
             (fun s => valid_bmi s && match bmi s with
                                      | Some b => Qltb b 16 || Qle_bool 30 b
                                      | None => false
                                      end) severe)
    by (intros x _; apply valid_declined_severe).
  rewrite guarded_percent by apply len_nonneg.
  eexists. split; [reflexivity|].
  cbn [school.hm_improved_count school.hm_stable_count school.hm_declined_count
       school.hm_improvement_rate].
  split; [reflexivity|]. split; [reflexivity|]. split; [reflexivity|].
  split; [apply health_counts_partition|]. split; [|split].
  - apply py_round1_percentage, percent_percentage.
    pose proof (filter_len_bound (fun s => valid_bmi s && healthy s) (s :: l)). lia.
  - intros ->. apply (py_round1_integer _ 0), percent_none.
  - intros _ ->. apply (py_round1_integer _ 100), percent_all, len_pos.
Qed.

(** ** [_get_beneficiary_students] *)

Lemma beneficiary_loop (l acc : list Student) :
  foldM school.beneficiary_step acc l = Ok (acc ++ List.filter marked l).
Proof.
  revert acc. induction l as [|s l IH]; intros acc.
  - simpl. rewrite app_nil_r. reflexivity.
  - assert (school.beneficiary_step acc s
            = Ok (if marked s then acc ++ [s] else acc)) as Hstep
      by (unfold school.beneficiary_step, marked;
          destruct (truthy_flag (is_beneficiary s)); reflexivity).
    cbn [foldM List.filter]. rewrite Hstep.
    change (Ok ?x ≫= ?f) with (f x). cbv beta. rewrite IH.
    destruct (marked s); [rewrite <- app_assoc|]; reflexivity.
Qed.

(** X6. [_get_beneficiary_students] returns, in the order of the input,
    exactly the students whose flag is set: a student whose flag is not set
    is never returned, whatever the bmi. *)
Theorem beneficiary_students_flagged (school_students : list Student) :
  school._get_beneficiary_students school_students
  = Ok (List.filter (fun s => truthy_flag (is_beneficiary s)) school_students)
  /\ forall s beneficiaries,
       school._get_beneficiary_students school_students = Ok beneficiaries ->
       In s beneficiaries -> is_beneficiary s = Some true.
Proof.
  assert (school._get_beneficiary_students school_students
          = Ok (List.filter marked school_students)) as H.
  { unfold school._get_beneficiary_students.
    destruct school_students as [|s l]; [reflexivity|].
    rewrite beneficiary_loop. reflexivity. }
  split; [exact H|].
  intros s r Hr Hs. rewrite H in Hr. injection Hr as <-.
  apply filter_In in Hs as [_ Hs]. unfold marked in Hs.
  destruct (is_beneficiary s) as [[|]|]; [reflexivity|discriminate|discriminate].
Qed.

(** ** [_calculate_section_analytics] *)

Lemma section_beneficiary_pure (s : Student) :
  school.section_beneficiary s = Ok (section_beneficiary_b s).
Proof.
  unfold school.section_beneficiary, section_beneficiary_b, py_and.
  rewrite has_valid_bmi_pure. simpl.
  destruct (valid_bmi s) eqn:E; [|reflexivity]. simpl.
  unfold py_or, marked. simpl.
  destruct (truthy_flag (is_beneficiary s)); [reflexivity|].
  apply outside_normal_pure, valid_bmi_not_null, E.
Qed.

Lemma section_step_pure (school_students : list Student)
    (acc : school.section_analytics) (sec : school.SchoolSection) :
  let section_students := List.filter (in_section sec) school_students in
  school.section_step school_students acc sec
  = Ok {| school.sa_labels := school.sa_labels acc ++ [school.section_name sec];
          school.sa_total_students :=
            school.sa_total_students acc ++ [len section_students];
          school.sa_beneficiaries :=
            school.sa_beneficiaries acc
            ++ [len (List.filter section_beneficiary_b section_students)];
          school.sa_participation_rate :=
            school.sa_participation_rate acc
            ++ [py_round1 (percent (len (List.filter valid_bmi section_students))
                                   (len section_students))] |}.
Proof.
  intros section_students. unfold school.section_step.
  change (List.filter _ school_students) with section_students.
  rewrite (filterM_pure_all school.section_beneficiary section_beneficiary_b)
    by apply section_beneficiary_pure.
  change (Ok ?x ≫= ?f) with (f x). cbv beta.
  rewrite (filterM_pure_all school.has_valid_bmi valid_bmi)
    by apply has_valid_bmi_pure.
  change (Ok ?x ≫= ?f) with (f x). cbv beta.
  destruct section_students as [|s l] eqn:E; [reflexivity|].
  rewrite py_div_pos by apply len_pos.
  unfold percent. pose proof (len_pos s l).
  destruct (len (s :: l) =? 0) eqn:E0; [apply Z.eqb_eq in E0; lia|reflexivity].
Qed.

Lemma section_loop (school_students : list Student)
    (sections : list school.SchoolSection) (acc : school.section_analytics) :
  foldM (school.section_step school_students) acc sections
  = Ok (let v := section_analytics_value sections school_students in
        {| school.sa_labels := school.sa_labels acc ++ school.sa_labels v;
           school.sa_total_students :=
             school.sa_total_students acc ++ school.sa_total_students v;
           school.sa_beneficiaries :=
             school.sa_beneficiaries acc ++ school.sa_beneficiaries v;
           school.sa_participation_rate :=
             school.sa_participation_rate acc ++ school.sa_participation_rate v |}).
Proof.
  revert acc. induction sections as [|sec sections IH]; intros acc.
  - simpl. rewrite !app_nil_r. destruct acc; reflexivity.
  - cbn [foldM]. rewrite section_step_pure.
    change (Ok ?x ≫= ?f) with (f x). cbv beta. rewrite IH. simpl.
    rewrite <- !app_assoc. reflexivity.
Qed.

Lemma section_analytics_pure (sections : list school.SchoolSection)
    (school_students : list Student) :
  school._calculate_section_analytics sections school_students
  = Ok (section_analytics_value sections school_students).
Proof.
  unfold school._calculate_section_analytics.
  destruct sections as [|sec sections]; [reflexivity|].
  rewrite section_loop. reflexivity.
Qed.

Lemma section_beneficiary_valid (s : Student) :
  section_beneficiary_b s = true -> valid_bmi s = true.
Proof. unfold section_beneficiary_b. intros H. apply andb_true_iff in H as [H _]. exact H. Qed.

(** X7. [_calculate_section_analytics] never raises and returns four
    parallel lists with one position per section, in the order of the
    sections.  At each position the number of beneficiaries is at most the
    number of students of the section, the participation rate is between 0
    and 100, and a section without students has rate 0. *)
Theorem section_analytics_aligned (sections : list school.SchoolSection)
    (school_students : list Student) :
  exists a,
    school._calculate_section_analytics sections school_students = Ok a /\
    school.sa_labels a = map school.section_name sections /\
    forall (i : nat) (sec : school.SchoolSection),
      sections !! i = Some sec ->
      exists total beneficiaries rate,
        school.sa_total_students a !! i = Some total /\
        school.sa_beneficiaries a !! i = Some beneficiaries /\
        school.sa_participation_rate a !! i = Some rate /\
        total = len (List.filter (in_section sec) school_students) /\
        0 <= beneficiaries <= total /\
        is_percentage rate /\
        (total = 0 -> (rate == 0)%Q).
Proof.
  eexists. split; [apply section_analytics_pure|]. split; [reflexivity|].
  intros i sec Hi. unfold section_analytics_value.
  cbn [school.sa_total_students school.sa_beneficiaries
       school.sa_participation_rate].
  rewrite !list_lookup_fmap, Hi. simpl.
  eexists _, _, _. split; [reflexivity|]. split; [reflexivity|].
  split; [reflexivity|]. split; [reflexivity|].
  set (ss := List.filter (in_section sec) school_students).
  split; [apply filter_len_bound|]. split.
  - apply py_round1_percentage, percent_percentage, filter_len_bound.
  - intros H0. unfold percent. rewrite H0. reflexivity.
Qed.

(** ** [_calculate_nutritional_trends] *)

Lemma healthy_or_at_risk (s : Student) :
  bmi_not_null s = true -> sql_at_risk s = negb (healthy s).
Proof.
  unfold bmi_not_null, sql_at_risk, healthy, Qltb.
  destruct (bmi s) as [b|]; [intros _|discriminate].
  destruct (Qle_bool (37 # 2) b), (Qle_bool 25 b); reflexivity.
Qed.

Lemma healthy_at_risk_partition (l : list Student) :
  Forall (fun s => bmi_not_null s = true) l ->
  len (List.filter healthy l) + len (List.filter sql_at_risk l) = len l.
Proof.
  induction 1 as [|s l Hs _ IH]; [reflexivity|].
  rewrite !len_filter_cons, len_cons, (healthy_or_at_risk s Hs).
  destruct (healthy s); simpl; lia.
Qed.

Lemma nutritional_step_pure (month_date : Z -> datetime) (students : list Student)
    (acc : school.nutritional_trends) (i : Z) :
  let month_students := List.filter (valid_created_in (month_date i)) students in
  school.nutritional_step month_date students acc i
  = Ok {| school.nt_labels :=
            school.calendar_month_abbr (month (month_date i)) :: school.nt_labels acc;
          school.nt_healthy :=
            len (List.filter healthy month_students) :: school.nt_healthy acc;
          school.nt_at_risk :=
            len (List.filter sql_at_risk month_students) :: school.nt_at_risk acc |}.
Proof.
  intros month_students. unfold school.nutritional_step.
  rewrite (filterM_pure_all (school.valid_and_created_in (month_date i))
             (valid_created_in (month_date i)))
    by apply valid_and_created_in_pure.
  change (Ok ?x ≫= ?f) with (f x). cbv beta. fold month_students.
  assert (Forall (fun s => bmi_not_null s = true) month_students) as Hnn
    by apply filter_and_not_null.
  rewrite (filterM_pure school.is_healthy healthy)
    by (eapply Forall_impl; [exact Hnn|]; intros x Hx; apply is_healthy_pure, Hx).
  change (Ok ?x ≫= ?f) with (f x). cbv beta.
  rewrite (filterM_pure (fun s => outside_normal (bmi s)) sql_at_risk)
    by (eapply Forall_impl; [exact Hnn|]; intros x Hx; apply outside_normal_pure, Hx).
  reflexivity.
Qed.

Lemma nutritional_trends_pure (month_date : Z -> datetime)
    (students : list Student) :
  school._calculate_nutritional_trends month_date students
  = Ok {| school.nt_labels :=
            map (fun i => school.calendar_month_abbr (month (month_date i)))
                [5; 4; 3; 2; 1; 0];
          school.nt_healthy :=
            map (fun i => len (List.filter healthy
                                 (List.filter (valid_created_in (month_date i)) students)))
                [5; 4; 3; 2; 1; 0];
          school.nt_at_risk :=
            map (fun i => len (List.filter sql_at_risk
                                 (List.filter (valid_created_in (month_date i)) students)))
                [5; 4; 3; 2; 1; 0] |}.
Proof.
  unfold school._calculate_nutritional_trends.
  cbn [foldM]. rewrite !nutritional_step_pure.
  repeat (change (Ok ?x ≫= ?f) with (f x); cbv beta;
          rewrite ?nutritional_step_pure).
  reflexivity.
Qed.

(** X8. [_calculate_nutritional_trends] never raises and returns six months,
    oldest first, with the same labels as [_calculate_improved_bmi_progress];
    in each month the healthy and the at-risk counts add up to the number of
    students with a valid BMI created in that month. *)
Theorem nutritional_trends_partition (month_date : Z -> datetime)
    (students : list Student) :
  exists t c,
    school._calculate_nutritional_trends month_date students = Ok t /\
    school._calculate_improved_bmi_progress month_date students = Ok c /\
    school.nt_labels t = school.labels c /\
    length (school.nt_labels t) = 6%nat /\
    forall i : nat,
      (i < 6)%nat ->
      exists h a,
        school.nt_healthy t !! (5 - i)%nat = Some h /\
        school.nt_at_risk t !! (5 - i)%nat = Some a /\
        h + a = len (List.filter (valid_created_in (month_date (Z.of_nat i)))
                                 students).
Proof.
  eexists _, _. split; [apply nutritional_trends_pure|].
  split; [apply improved_bmi_progress_pure|].
  split; [reflexivity|]. split; [reflexivity|].
  intros i Hi.
  assert (forall d, len (List.filter healthy (List.filter (valid_created_in d) students))
                    + len (List.filter sql_at_risk
                             (List.filter (valid_created_in d) students))
                    = len (List.filter (valid_created_in d) students)) as Hp.
  { intros d. apply healthy_at_risk_partition, filter_and_not_null. }
  do 6 (destruct i as [|i];
        [eexists _, _; split; [reflexivity|]; split; [reflexivity|]; apply Hp|]).
  lia.
Qed.

(** ** [_calculate_monthly_summary] *)

(** X9. [_calculate_monthly_summary] never raises.  Its number of alerts is
    the number of students that [_get_at_risk_students] returns for the same
    collection, its number of assessments is the number of students with a
    valid BMI, and alerts <= assessments <= number of students. *)
Theorem monthly_summary_counts (now : datetime) (strftime_B_Y : datetime -> string)
    (students : list Student) :
  exists m at_risk,
    school._calculate_monthly_summary now strftime_B_Y students = Ok m /\
    school._get_at_risk_students students = Ok at_risk /\
    school.ms_alerts_generated m = len at_risk /\
    school.ms_assessments_completed m = len (List.filter valid_bmi students) /\
    0 <= school.ms_alerts_generated m <= school.ms_assessments_completed m /\
    school.ms_assessments_completed m <= len students /\
    0 <= school.ms_new_students m <= len students.
Proof.
  eexists _, _. split.
  { unfold school._calculate_monthly_summary.
    rewrite (filterM_pure_all school.has_valid_bmi valid_bmi)
      by apply has_valid_bmi_pure.
    change (Ok ?x ≫= ?f) with (f x). cbv beta.
    rewrite (filterM_valid_and
               (fun s => py_or (py_lt (bmi s) 16) (py_ge (bmi s) 30)) _ _
               declined_pure).
    rewrite (filter_ext_in_len
               (fun s => valid_bmi s && match bmi s with
                                        | Some b => Qltb b 16 || Qle_bool 30 b
                                        | None => false
                                        end) severe)
      by (intros x _; apply valid_declined_severe).
    reflexivity. }
  split; [apply at_risk_students_sorted|].
  cbn [school.ms_alerts_generated school.ms_assessments_completed
       school.ms_new_students].
  split; [symmetry; apply len_Permutation, py_sort_Permutation|].
  split; [reflexivity|].
  split; [split; [apply len_nonneg|]|].
  - apply filter_len_le. unfold severe, valid_bmi. intros s.
    destruct (bmi s); [|discriminate]. intros H.
    apply andb_true_iff in H as [H _]. exact H.
  - split; [apply filter_len_bound|apply filter_len_bound].
Qed.

(** ** [_calculate_compliance_stats] *)

Lemma compliance_step_total (table : list Student) (c p m : Z)
    (sch : school.School) :
  exists c' p' m',
    school.compliance_step table (c, p, m) sch = Ok (c', p', m') /\
    c <= c' /\ p <= p' /\ m <= m' /\ c' + p' + m' = c + p + m + 1 /\
    (List.filter (of_school sch) table = [] -> c' = c /\ p' = p /\ m' = m + 1).
Proof.
  unfold school.compliance_step.
  change (List.filter _ table) with (List.filter (of_school sch) table).
  destruct (List.filter (of_school sch) table) as [|s l] eqn:E.
  - eexists _, _, _. split; [reflexivity|]. repeat split; lia.
  - rewrite py_div_pos by (pose proof (len_pos s l); lia).
    change (Ok ?x ≫= ?f) with (f x). cbv beta.
    destruct (Qle_bool (9 # 10) _); [|destruct (Qle_bool (1 # 2) _)];
      eexists _, _, _; (split; [reflexivity|]); repeat split;
      try lia; discriminate.
Qed.

Lemma compliance_loop (table : list Student) (schools : list school.School) :
  forall c p m,
  exists c' p' m',
    foldM (school.compliance_step table) (c, p, m) schools = Ok (c', p', m') /\
    c <= c' /\ p <= p' /\ m <= m' /\ c' + p' + m' = c + p + m + len schools /\
    (Forall (fun sch => List.filter (of_school sch) table = []) schools ->
     c' = c /\ p' = p /\ m' = m + len schools).
Proof.
  induction schools as [|sch schools IH]; intros c p m.
  - exists c, p, m. split; [reflexivity|]. rewrite len_nil. repeat split; lia.
  - destruct (compliance_step_total table c p m sch)
      as (c1 & p1 & m1 & Hstep & Hc & Hp & Hm & Hsum & Hempty).
    destruct (IH c1 p1 m1) as (c2 & p2 & m2 & Hloop & Hc2 & Hp2 & Hm2 & Hsum2 & Hempty2).
    exists c2, p2, m2. cbn [foldM]. rewrite Hstep.
    change (Ok ?x ≫= ?f) with (f x). cbv beta.
    split; [exact Hloop|]. rewrite len_cons.
    split; [lia|]. split; [lia|]. split; [lia|]. split; [lia|].
    intros Hall. apply Forall_cons in Hall as [H1 H2].
    specialize (Hempty H1). specialize (Hempty2 H2). lia.
Qed.

(** X10. [_calculate_compliance_stats] never raises.  When the schools can
    be read, every school is counted in exactly one of complete, partial and
    missing, so the three add up to the number of schools, and a school
    without students is counted as missing.  When the database fails the
    three counts are 0.  [total_schools] is returned as it was passed. *)
Theorem compliance_stats_partition (table : list Student) (total_schools : Z) :
  (forall schools : list school.School,
     exists st,
       school._calculate_compliance_stats (Ok schools) table total_schools = Ok st /\
       0 <= school.cs_complete_docs st /\
       0 <= school.cs_partial_docs st /\
       0 <= school.cs_missing_docs st /\
       school.cs_complete_docs st + school.cs_partial_docs st
         + school.cs_missing_docs st = len schools /\
       school.cs_total_schools st = total_schools /\
       (Forall (fun sch => List.filter (of_school sch) table = []) schools ->
        school.cs_missing_docs st = len schools)) /\
  (forall e : PyExc,
     school._calculate_compliance_stats (Raise e) table total_schools
     = Ok {| school.cs_complete_docs := 0; school.cs_partial_docs := 0;
             school.cs_missing_docs := 0;
             school.cs_total_schools := total_schools |}).
Proof.
  split; [|reflexivity].
  intros schools.
  destruct (compliance_loop table schools 0 0 0)
    as (c & p & m & Hloop & Hc & Hp & Hm & Hsum & Hempty).
  eexists. split.
  { unfold school._calculate_compliance_stats.
    change (Ok ?x ≫= ?f) with (f x). cbv beta. rewrite Hloop. reflexivity. }
  cbn [school.cs_complete_docs school.cs_partial_docs school.cs_missing_docs
       school.cs_total_schools].
  repeat split; try lia. intros Hall. specialize (Hempty Hall). lia.
Qed.

(** ** The two trends, on months that have data *)

Lemma bmi_sum_nonneg (l : list Student) (acc : Q) :
  (0 <= acc)%Q -> Forall (fun s => valid_bmi s = true) l ->
  (0 <= foldl (fun acc s => (acc + default 0 (bmi s))%Q) acc l)%Q.
Proof.
  intros Hacc H. revert acc Hacc.
  induction H as [|s l Hs _ IH]; intros acc Hacc; [exact Hacc|].
  simpl. apply IH. unfold valid_bmi in Hs.
  destruct (bmi s) as [b|]; [|discriminate]. simpl.
  apply Qltb_lt in Hs. lra.
Qed.

Lemma improved_value_nonneg (d : datetime) (students : list Student) :
  List.filter (valid_created_in d) students <> [] ->
  (0 <= improved_value d students)%Q.
Proof.
  intros Hne. unfold improved_value.
  change (List.filter (fun s => valid_bmi s && school.created_in d s) students)
    with (List.filter (valid_created_in d) students).
  assert (Forall (fun s => valid_bmi s = true)
                 (List.filter (valid_created_in d) students)) as Hvalid.
  { apply List.Forall_forall. intros s Hs. apply filter_In in Hs as [_ Hs].
    apply andb_true_iff in Hs as [Hs _]. exact Hs. }
  destruct (List.filter (valid_created_in d) students) as [|s l];
    [contradiction|].
  rewrite <- py_round1_eq.
  assert (0 == inject_Z 0 / inject_Z (10 ^ Z.of_nat 1))%Q as -> by reflexivity.
  apply py_round_lower. change (inject_Z 0) with 0%Q.
  apply Qmult_le_0_compat; [|discriminate].
  unfold bmi_mean. apply Qle_shift_div_l; [apply inject_Z_pos, len_pos|].
  rewrite Qmult_0_l. apply bmi_sum_nonneg; [apply Qle_refl|exact Hvalid].
Qed.

Lemma improved_value_own (d d' : datetime) (students students' : list Student) :
  List.filter (valid_created_in d) students <> [] ->
  List.filter (valid_created_in d') students'
  = List.filter (valid_created_in d) students ->
  improved_value d' students' = improved_value d students.
Proof.
  intros Hne Hsame. unfold improved_value.
  change (List.filter (fun s => valid_bmi s && school.created_in d' s) students')
    with (List.filter (valid_created_in d') students').
  change (List.filter (fun s => valid_bmi s && school.created_in d s) students)
    with (List.filter (valid_created_in d) students).
  rewrite Hsame.
  destruct (List.filter (valid_created_in d) students); [contradiction|reflexivity].
Qed.

(** X11. In [_calculate_improved_bmi_progress] the chart always has six
    labels and six values, and a month in which students with a valid BMI
    were created reports a value of its own: it is not negative, and it is
    determined by these students alone, so that any run in which a month
    has the same students with a valid BMI reports the same value for it,
    whatever the other students are. *)
Theorem improved_progress_own_month (month_date : Z -> datetime)
    (students : list Student) (i : nat) :
  (i < 6)%nat ->
  List.filter (valid_created_in (month_date (Z.of_nat i))) students <> [] ->
  exists c v,
    school._calculate_improved_bmi_progress month_date students = Ok c /\
    length (school.labels c) = 6%nat /\
    length (school.values c) = 6%nat /\
    school.values c !! (5 - i)%nat = Some v /\
    (0 <= v)%Q /\
    forall (month_date' : Z -> datetime) (students' : list Student) (j : nat),
      (j < 6)%nat ->
      List.filter (valid_created_in (month_date' (Z.of_nat j))) students'
      = List.filter (valid_created_in (month_date (Z.of_nat i))) students ->
      exists c',
        school._calculate_improved_bmi_progress month_date' students' = Ok c' /\
        school.values c' !! (5 - j)%nat = Some v.
Proof.
  intros Hi Hne.
  destruct (improved_progress_value month_date students i Hi)
    as (c & Hc & Hl & Hn & Hv).
  exists c, (improved_value (month_date (Z.of_nat i)) students).
  split; [exact Hc|]. split; [exact Hl|]. split; [exact Hn|].
  split; [exact Hv|]. split; [apply improved_value_nonneg, Hne|].
  intros month_date' students' j Hj Hsame.
  destruct (improved_progress_value month_date' students' j Hj)
    as (c' & Hc' & _ & _ & Hv').
  exists c'. split; [exact Hc'|].
  rewrite Hv', (improved_value_own _ _ _ _ Hne Hsame). reflexivity.
Qed.

Lemma healthy_share_percentage (l : list Student) :
  l <> [] -> is_percentage (healthy_share l).
Proof.
  intros Hl. unfold healthy_share.
  pose proof (percent_percentage (len (List.filter healthy l)) (len l)
                (filter_len_bound healthy l)) as H.
  unfold percent in H. destruct l as [|s l]; [contradiction|].
  pose proof (len_pos s l).
  destruct (len (s :: l) =? 0) eqn:E; [apply Z.eqb_eq in E; lia|exact H].
Qed.

Lemma population_share_percentage (table : list Student) :
  is_percentage (population_share table).
Proof.
  unfold population_share.
  destruct (List.filter bmi_not_null table) eqn:E; [split; discriminate|].
  apply healthy_share_percentage. discriminate.
Qed.

Lemma monthly_value_percentage (table : list Student) (m : Z) :
  is_percentage (monthly_value table m).
Proof.
  unfold monthly_value. apply py_round1_percentage.
  destruct (List.filter (school.month_matches m) table) as [|s l];
    [apply population_share_percentage|].
  destruct (List.filter (fun s => truthy (bmi s)) (s :: l)) eqn:E;
    [apply population_share_percentage|].
  apply healthy_share_percentage. discriminate.
Qed.

(** X12. [_calculate_monthly_progress_trends] never raises and returns the
    twelve labels Jan to Dec with twelve values, each between 0 and 100. *)
Theorem monthly_trends_percentages (table : list Student) :
  exists c,
    school._calculate_monthly_progress_trends table = Ok c /\
    school.labels c = ["Jan"; "Feb"; "Mar"; "Apr"; "May"; "Jun";
                       "Jul"; "Aug"; "Sep"; "Oct"; "Nov"; "Dec"] /\
    length (school.values c) = 12%nat /\
    Forall is_percentage (school.values c).
Proof.
  eexists. split; [apply monthly_progress_trends_pure|].
  split; [reflexivity|]. split; [reflexivity|].
  cbn [school.values]. apply Forall_fmap, Forall_forall.
  intros m _. apply monthly_value_percentage.
Qed.

(** ** super_admin.py: the dashboard *)

Lemma dashboard_mirror_keys (s : Student) :
  bool_decide ("severely_underweight" ∈ dashboard_keys s)
  = bool_decide ("severely_wasted" ∈ dashboard_keys s) /\
  bool_decide ("underweight" ∈ dashboard_keys s)
  = bool_decide ("wasted" ∈ dashboard_keys s).
Proof.
  unfold dashboard_keys. destruct (bmi s) as [b|]; [|split; reflexivity].
  destruct (classify b); split; vm_compute; reflexivity.
Qed.

Lemma classify_normal (b : Q) :
  bool_decide (classify b = Normal) = Qle_bool (37 # 2) b && Qltb b 25.
Proof.
  unfold classify, Qltb.
  assert (Qle_bool (37 # 2) b = true -> Qle_bool 16 b = true) as H1
    by (apply Qle_bool_mono; discriminate).
  destruct (Qle_bool 16 b) eqn:E1, (Qle_bool (37 # 2) b) eqn:E2,
           (Qle_bool 25 b) eqn:E3; simpl; try reflexivity;
    try (destruct (Qle_bool 30 b); reflexivity).
  specialize (H1 eq_refl). discriminate.
Qed.

Lemma dashboard_normal_key (s : Student) :
  bool_decide ("normal" ∈ dashboard_keys s) = healthy s.
Proof.
  change "normal" with (category_key Normal).
  rewrite dashboard_keys_category. unfold category_keys, healthy.
  destruct (bmi s) as [b|]; [|reflexivity].
  rewrite category_key_in.
  rewrite <- classify_normal. apply bool_decide_ext. split; congruence.
Qed.

Lemma sql_at_risk_not_null (l : list Student) :
  List.filter sql_at_risk (List.filter bmi_not_null l) = List.filter sql_at_risk l.
Proof.
  rewrite filter_filter. apply filter_ext_in_len. intros s _.
  unfold bmi_not_null, sql_at_risk. destruct (bmi s); reflexivity.
Qed.

(** X13. In the super-admin dashboard the legacy keys mirror the current
    ones: severely_underweight always equals severely_wasted and underweight
    always equals wasted.  The at-risk count and the normal count together
    are the number of students with a bmi. *)
Theorem dashboard_distribution_consistent (student_filter : list Student) :
  exists d normal,
    super_admin.dashboard__bmi_distribution student_filter = Ok d /\
    d !! "severely_underweight" = d !! "severely_wasted" /\
    d !! "underweight" = d !! "wasted" /\
    d !! "normal" = Some normal /\
    super_admin.dashboard__at_risk_students student_filter + normal
    = len (List.filter bmi_not_null student_filter).
Proof.
  eexists _, _. split; [apply dashboard_distribution_tally|].
  rewrite !lookup_tally by apply dashboard_keys_NoDup.
  assert (forall k k' l,
            (forall s, bool_decide (k ∈ dashboard_keys s)
                       = bool_decide (k' ∈ dashboard_keys s)) ->
            occurrences dashboard_keys k l = occurrences dashboard_keys k' l) as Hocc.
  { intros k k' l H. unfold occurrences. f_equal.
    apply filter_ext_in_len. intros s _. apply H. }
  split; [|split; [|split]].
  - rewrite (Hocc "severely_underweight" "severely_wasted")
      by (intros s; apply dashboard_mirror_keys). reflexivity.
  - rewrite (Hocc "underweight" "wasted")
      by (intros s; apply dashboard_mirror_keys). reflexivity.
  - reflexivity.
  - unfold super_admin.dashboard__at_risk_students, occurrences.
    rewrite (filter_ext_in_len
               (fun s => bool_decide ("normal" ∈ dashboard_keys s)) healthy)
      by (intros s _; apply dashboard_normal_key).
    rewrite <- sql_at_risk_not_null.
    pose proof (healthy_at_risk_partition (List.filter bmi_not_null student_filter)
                  (filter_not_null student_filter)). lia.
Qed.

(** X14. The beneficiary and non-beneficiary counts of the dashboard add up
    to the number of students whose flag is not NULL, which is at most the
    number of students: a student with a NULL flag is in neither count. *)
Theorem beneficiary_distribution_total (student_filter : list Student) :
  let '(beneficiaries, non_beneficiaries) :=
    super_admin.dashboard__beneficiary_distribution student_filter in
  0 <= beneficiaries /\ 0 <= non_beneficiaries /\
  beneficiaries + non_beneficiaries
  = len (List.filter (fun s => bool_decide (is_beneficiary s <> None))
                     student_filter) /\
  beneficiaries + non_beneficiaries <= len student_filter.
Proof.
  unfold super_admin.dashboard__beneficiary_distribution.
  assert (len (List.filter (fun s => bool_decide (is_beneficiary s = Some true))
                           student_filter)
          + len (List.filter (fun s => bool_decide (is_beneficiary s = Some false))
                             student_filter)
          = len (List.filter (fun s => bool_decide (is_beneficiary s <> None))
                             student_filter)) as H.
  { induction student_filter as [|s l IH]; [reflexivity|].
    rewrite !len_filter_cons.
    destruct (is_beneficiary s) as [[|]|];
      repeat case_bool_decide; try congruence; lia. }
  split; [apply len_nonneg|]. split; [apply len_nonneg|]. split; [exact H|].
  rewrite H. apply filter_len_bound.
Qed.

Lemma age_step_keys (age : Student -> option Z) (d : gmap string Z) (s : Student) :
  has_keys age_group_keys d ->
  super_admin.age_step age d s = Ok (foldl bump d (age_keys age s)).
Proof.
  intros H. unfold super_admin.age_step, age_keys.
  destruct (age s) as [a|]; [|reflexivity].
  destruct (a =? 0) eqn:E0.
  { apply Z.eqb_eq in E0. subst a. reflexivity. }
  destruct ((5 <=? a) && (a <=? 8)); [key_present H|].
  destruct ((9 <=? a) && (a <=? 12)); [key_present H|].
  destruct ((13 <=? a) && (a <=? 16)); [key_present H|].
  destruct (17 <=? a); [key_present H|reflexivity].
Qed.

Lemma age_keys_NoDup (age : Student -> option Z) (s : Student) :
  NoDup (age_keys age s).
Proof.
  unfold age_keys. destruct (age s) as [a|]; [|constructor].
  repeat (match goal with |- context [if ?c then _ else _] => destruct c end);
    try apply NoDup_singleton; constructor.
Qed.

Lemma age_indicator (age : Student -> option Z) (s : Student) :
  indicator (age_keys age s) "5-8" + indicator (age_keys age s) "9-12"
  + indicator (age_keys age s) "13-16" + indicator (age_keys age s) "17+"
  = if aged_five_or_more age s then 1 else 0.
Proof.
  unfold age_keys, aged_five_or_more. destruct (age s) as [a|]; [|reflexivity].
  destruct (5 <=? a) eqn:E5, (a <=? 8) eqn:E8; simpl; try reflexivity.
  - destruct (9 <=? a) eqn:E9, (a <=? 12) eqn:E12; simpl; try reflexivity;
      destruct (13 <=? a) eqn:E13, (a <=? 16) eqn:E16; simpl; try reflexivity;
      destruct (17 <=? a) eqn:E17; simpl; try reflexivity; lia.
  - destruct (9 <=? a) eqn:E9, (a <=? 12) eqn:E12; simpl; try lia;
      destruct (13 <=? a) eqn:E13, (a <=? 16) eqn:E16; simpl; try lia;
      destruct (17 <=? a) eqn:E17; simpl; try reflexivity; lia.
  - destruct (9 <=? a) eqn:E9, (a <=? 12) eqn:E12; simpl; try lia;
      destruct (13 <=? a) eqn:E13, (a <=? 16) eqn:E16; simpl; try lia;
      destruct (17 <=? a) eqn:E17; simpl; try reflexivity; lia.
Qed.

Lemma age_occurrences (age : Student -> option Z) (l : list Student) :
  occurrences (age_keys age) "5-8" l + occurrences (age_keys age) "9-12" l
  + occurrences (age_keys age) "13-16" l + occurrences (age_keys age) "17+" l
  = len (List.filter (aged_five_or_more age) l).
Proof.
  induction l as [|s l IH]; [reflexivity|].
  rewrite !occurrences_cons, len_filter_cons.
  pose proof (age_indicator age s) as H. unfold indicator in H. lia.
Qed.

(** X15. The age groups of the dashboard never raise, always hold the four
    keys, and together count exactly the students aged 5 or more: a student
    without age, or younger than 5, is in no group. *)
Theorem age_groups_total (age : Student -> option Z)
    (filtered_students : list Student) :
  exists g n1 n2 n3 n4,
    super_admin.dashboard__age_groups age filtered_students = Ok g /\
    g !! "5-8" = Some n1 /\ g !! "9-12" = Some n2 /\
    g !! "13-16" = Some n3 /\ g !! "17+" = Some n4 /\
    0 <= n1 /\ 0 <= n2 /\ 0 <= n3 /\ 0 <= n4 /\
    n1 + n2 + n3 + n4
    = len (List.filter (aged_five_or_more age) filtered_students).
Proof.
  assert (has_keys age_group_keys super_admin.age_groups_zero) as Hk
    by (apply has_keys_zero; vm_compute; reflexivity).
  eexists _, _, _, _, _. split.
  { unfold super_admin.dashboard__age_groups.
    apply (foldM_tally _ (age_keys age) age_group_keys); [|exact Hk].
    intros d s _ Hd. apply age_step_keys, Hd. }
  rewrite !lookup_tally by apply age_keys_NoDup.
  split; [reflexivity|]. split; [reflexivity|]. split; [reflexivity|].
  split; [reflexivity|].
  unfold occurrences at 1 2 3 4.
  split; [pose proof (len_nonneg (List.filter (fun s => bool_decide ("5-8" ∈ age_keys age s)) filtered_students)); lia|].
  split; [pose proof (len_nonneg (List.filter (fun s => bool_decide ("9-12" ∈ age_keys age s)) filtered_students)); lia|].
  split; [pose proof (len_nonneg (List.filter (fun s => bool_decide ("13-16" ∈ age_keys age s)) filtered_students)); lia|].
  split; [pose proof (len_nonneg (List.filter (fun s => bool_decide ("17+" ∈ age_keys age s)) filtered_students)); lia|].
  pose proof (age_occurrences age filtered_students). lia.
Qed.

(** ** super_admin.py: the SBFP report *)

Lemma rounded_rate_pure (n d : Z) :
  0 <= d -> super_admin.rounded_rate n d = Ok (py_round 2 (percent n d)).
Proof.
  intros Hd. unfold super_admin.rounded_rate.
  rewrite guarded_percent by exact Hd. reflexivity.
Qed.

Lemma report_row_of_pure (table : list Student) (sch : school.School) :
  super_admin.report_row_of table sch = Ok (report_row_value table sch).
Proof.
  unfold super_admin.report_row_of. rewrite rounded_rate_pure by apply len_nonneg.
  reflexivity.
Qed.

Lemma report_row_bounds (table : list Student) (sch : school.School) :
  let r := report_row_value table sch in
  0 <= super_admin.rr_sbfp_beneficiaries r <= super_admin.rr_total_students r /\
  is_percentage (super_admin.rr_beneficiary_percentage r).
Proof.
  unfold report_row_value.
  cbn [super_admin.rr_sbfp_beneficiaries super_admin.rr_total_students
       super_admin.rr_beneficiary_percentage].
  assert (0 <= len (List.filter
                      (fun s => of_school sch s
                                && bool_decide (is_beneficiary s = Some true)) table)
          <= len (List.filter (of_school sch) table)) as H.
  { split; [apply len_nonneg|]. apply filter_len_le. intros s Hs.
    apply andb_true_iff in Hs as [Hs _]. exact Hs. }
  split; [exact H|]. apply py_round_percentage, percent_percentage, H.
Qed.

Lemma py_sum_le {A} (f g : A -> Z) (l : list A) (a b : Z) :
  a <= b -> Forall (fun x => f x <= g x) l ->
  foldl Z.add a (map f l) <= foldl Z.add b (map g l).
Proof.
  intros Hab H. revert a b Hab.
  induction H as [|x l Hx _ IH]; intros a b Hab; [exact Hab|].
  simpl. apply IH. lia.
Qed.

Lemma py_sum_nonneg {A} (f : A -> Z) (l : list A) (a : Z) :
  0 <= a -> Forall (fun x => 0 <= f x) l -> 0 <= foldl Z.add a (map f l).
Proof.
  intros Ha H. revert a Ha.
  induction H as [|x l Hx _ IH]; intros a Ha; [exact Ha|].
  simpl. apply IH. lia.
Qed.

(** X17. The data of [generate_sbfp_report] is built without raising: one
    row per school, with the name of the school, the number of its students
    and the number of its students whose flag is true, ordered by number of
    beneficiaries from the highest to the lowest; in every row the
    beneficiaries are at most the students and the percentage is between 0
    and 100; the overall totals satisfy the same bounds, and the overall
    percentage is 0 when there is no student. *)
Theorem sbfp_report_rows (schools : list school.School) (table : list Student) :
  exists rows total_beneficiaries total_students_all overall_percentage,
    super_admin.generate_sbfp_report__data schools table
    = Ok (rows, total_beneficiaries, total_students_all, overall_percentage) /\
    Permutation (map row_counts rows) (map (school_row_counts table) schools) /\
    StronglySorted
      (fun a b => super_admin.rr_sbfp_beneficiaries b
                  <= super_admin.rr_sbfp_beneficiaries a) rows /\
    Forall (fun r =>
              0 <= super_admin.rr_sbfp_beneficiaries r
                <= super_admin.rr_total_students r /\
              is_percentage (super_admin.rr_beneficiary_percentage r)) rows /\
    0 <= total_beneficiaries <= total_students_all /\
    is_percentage overall_percentage /\
    (total_students_all = 0 -> (overall_percentage == 0)%Q).
Proof.
  set (rows := school.py_sort true
                 (fun x => inject_Z (super_admin.rr_sbfp_beneficiaries x))
                 (map (report_row_value table) schools)).
  assert (Forall (fun r =>
              0 <= super_admin.rr_sbfp_beneficiaries r
                <= super_admin.rr_total_students r /\
              is_percentage (super_admin.rr_beneficiary_percentage r)) rows) as Hrows.
  { apply List.Forall_forall. intros r Hr.
    apply (Permutation_in _ (py_sort_Permutation _ _ _)) in Hr.
    apply in_map_iff in Hr as (sch & <- & _). apply report_row_bounds. }
  assert (0 <= super_admin.py_sum (map super_admin.rr_sbfp_beneficiaries rows)
          <= super_admin.py_sum (map super_admin.rr_total_students rows)) as Htot.
  { unfold super_admin.py_sum. split.
    - apply py_sum_nonneg; [lia|].
      eapply Forall_impl; [exact Hrows|]. intros r [[H _] _]. exact H.
    - apply py_sum_le; [lia|].
      eapply Forall_impl; [exact Hrows|]. intros r [[_ H] _]. exact H. }
  eexists rows, _, _, _. split.
  { unfold super_admin.generate_sbfp_report__data.
    rewrite (foldM_pure _ (fun acc sch => acc ++ [report_row_value table sch]))
      by (intros acc sch _; rewrite report_row_of_pure; reflexivity).
    change (Ok ?x ≫= ?f) with (f x). cbv beta. rewrite foldl_snoc_map.
    cbn [app]. fold rows.
    rewrite rounded_rate_pure by lia. reflexivity. }
  split.
  { unfold rows.
    rewrite (Permutation_map row_counts (py_sort_Permutation _ _ _)).
    rewrite map_map. reflexivity. }
  split; [|split; [exact Hrows|]].
  - pose proof (py_sort_sorted true
                  (fun x => inject_Z (super_admin.rr_sbfp_beneficiaries x))
                  (map (report_row_value table) schools)) as H. simpl in H.
    eapply StronglySorted_weaken; [|exact H].
    intros a b Hab. apply Qle_bool_iff in Hab. rewrite Zle_Qle. exact Hab.
  - split; [exact Htot|]. split.
    + apply py_round_percentage, percent_percentage, Htot.
    + intros H0. unfold percent. rewrite H0. reflexivity.
Qed.

(** ** The properties above, on sample data *)

Lemma top_performing_schools_best_witness :
  exists performance top_schools,
    school._calculate_school_performance [sample_school] sample_students
    = Ok performance /\
    school._get_top_performing_schools [sample_school] sample_students
    = Ok top_schools /\
    length top_schools = 1%nat.
Proof.
  destruct (top_performing_schools_best [sample_school] sample_students)
    as (performance & top_schools & Hp & Ht & _ & Hlen & _).
  exists performance, top_schools. split; [exact Hp|]. split; [exact Ht|].
  exact Hlen.
Defined.

Lemma beneficiary_students_flagged_witness :
  is_beneficiary
    (student_created (Some 20%Q) (Some true) {| year := 2026; month := 11 |})
  = Some true.
Proof.
  apply (proj2 (beneficiary_students_flagged sample_students) _
           [student_created (Some 20%Q) (Some true)
                            {| year := 2026; month := 11 |}]).
  - reflexivity.
  - left. reflexivity.
Defined.

Lemma section_analytics_aligned_witness :
  exists a total,
    school._calculate_section_analytics [sample_section] sample_students = Ok a /\
    school.sa_total_students a !! 0%nat = Some total /\ total = 0.
Proof.
  destruct (section_analytics_aligned [sample_section] sample_students)
    as (a & Ha & _ & Hi).
  destruct (Hi 0%nat sample_section eq_refl)
    as (total & b & r & Ht & _ & _ & Htotal & _).
  exists a, total. split; [exact Ha|]. split; [exact Ht|]. exact Htotal.
Defined.

Lemma nutritional_trends_partition_witness :
  exists t h a,
    school._calculate_nutritional_trends sample_clock sample_students = Ok t /\
    school.nt_healthy t !! 5%nat = Some h /\
    school.nt_at_risk t !! 5%nat = Some a /\
    h + a = 1.
Proof.
  destruct (nutritional_trends_partition sample_clock sample_students)
    as (t & c & Ht & _ & _ & _ & Hi).
  destruct (Hi 0%nat ltac:(lia)) as (h & a & Hh & Ha & Hsum).
  exists t, h, a. split; [exact Ht|]. split; [exact Hh|]. split; [exact Ha|].
  exact Hsum.
Defined.

Lemma compliance_stats_partition_witness :
  exists st,
    school._calculate_compliance_stats (Ok [sample_school]) [] 1 = Ok st /\
    school.cs_missing_docs st = 1.
Proof.
  destruct (proj1 (compliance_stats_partition [] 1) [sample_school])
    as (st & Hst & _ & _ & _ & _ & _ & Hmissing).
  exists st. split; [exact Hst|]. apply Hmissing.
  constructor; [reflexivity|constructor].
Defined.

Lemma health_metrics_partition_witness :
  exists m,
    school._calculate_health_metrics [student_with_bmi (Some 20%Q)] = Ok m /\
    (school.hm_improvement_rate m == 100)%Q.
Proof.
  destruct (health_metrics_partition [student_with_bmi (Some 20%Q)])
    as (m & Hm & Himproved & _ & _ & _ & _ & _ & Hall).
  exists m. split; [exact Hm|]. apply Hall; [discriminate|].
  rewrite Himproved. reflexivity.
Defined.

Lemma improved_progress_own_month_witness :
  exists c v,
    school._calculate_improved_bmi_progress sample_clock sample_students = Ok c /\
    school.values c !! 4%nat = Some v /\ (0 <= v)%Q.
Proof.
  destruct (improved_progress_own_month sample_clock sample_students 1%nat
              ltac:(lia) ltac:(discriminate))
    as (c & v & Hc & _ & _ & Hv & Hpos & _).
  exists c, v. split; [exact Hc|]. split; [exact Hv|exact Hpos].
Defined.

Lemma sbfp_report_rows_witness :
  exists rows tb ts pct,
    super_admin.generate_sbfp_report__data [] [] = Ok (rows, tb, ts, pct) /\
    (pct == 0)%Q.
Proof.
  destruct (sbfp_report_rows [] [])
    as (rows & tb & ts & pct & H & _ & _ & _ & Hb & _ & H0).
  exists rows, tb, ts, pct. split; [exact H|]. apply H0.
  vm_compute in H. injection H as _ _ <- _. reflexivity.
Defined.

(** ** How the aggregations relate to one another *)

Lemma student_keys_same (c : BmiCategory) (s : Student) :
  c = SeverelyWasted \/ c = Wasted \/ c = Normal ->
  indicator (student_keys s) (category_key c)
  = indicator (category_keys s) (category_key c).
Proof.
  unfold student_keys, category_keys, classify, indicator.
  destruct (bmi s) as [b|]; [|reflexivity].
  intros [->|[->| ->]];
    destruct (Qltb b 16), (Qltb b (37 # 2)), (Qltb b 25), (Qltb b 30);
    vm_compute; reflexivity.
Qed.

Lemma student_keys_overweight (s : Student) :
  indicator (student_keys s) "overweight"
  = indicator (category_keys s) "overweight"
    + indicator (category_keys s) "obese".
Proof.
  unfold student_keys, category_keys, classify, indicator.
  destruct (bmi s) as [b|]; [|reflexivity].
  destruct (Qltb b 16), (Qltb b (37 # 2)), (Qltb b 25), (Qltb b 30);
    vm_compute; reflexivity.
Qed.

Lemma occurrences_indicator (keys : Student -> list string) (k : string)
    (l : list Student) :
  occurrences keys k l = foldr (fun s acc => indicator (keys s) k + acc) 0 l.
Proof.
  induction l as [|s l IH]; [reflexivity|].
  rewrite occurrences_cons, IH. reflexivity.
Qed.

Lemma occurrences_student_same (c : BmiCategory) (l : list Student) :
  c = SeverelyWasted \/ c = Wasted \/ c = Normal ->
  occurrences student_keys (category_key c) l
  = occurrences category_keys (category_key c) l.
Proof.
  intros Hc. rewrite !occurrences_indicator.
  induction l as [|s l IH]; [reflexivity|]. simpl.
  rewrite IH, (student_keys_same c s Hc). reflexivity.
Qed.

Lemma occurrences_student_overweight (l : list Student) :
  occurrences student_keys "overweight" l
  = occurrences category_keys "overweight" l
    + occurrences category_keys "obese" l.
Proof.
  rewrite !occurrences_indicator.
  induction l as [|s l IH]; [reflexivity|]. simpl.
  rewrite IH, student_keys_overweight. lia.
Qed.

(** X18. The four-category distribution of the school dashboard is the
    five-category one with obese merged into overweight: on every input
    the severely_wasted, wasted and normal counts of
    [_calculate_student_bmi_distribution] and
    [_calculate_accurate_bmi_distribution] are equal, and the overweight
    count of the former is the sum of the overweight and obese counts of
    the latter. *)
Theorem student_distribution_merges_obese (students : list Student) :
  exists d4 d5 overweight obese,
    school._calculate_student_bmi_distribution students = Ok d4 /\
    school._calculate_accurate_bmi_distribution students = Ok d5 /\
    d4 !! "severely_wasted" = d5 !! "severely_wasted" /\
    d4 !! "wasted" = d5 !! "wasted" /\
    d4 !! "normal" = d5 !! "normal" /\
    d5 !! "overweight" = Some overweight /\
    d5 !! "obese" = Some obese /\
    d4 !! "overweight" = Some (overweight + obese).
Proof.
  eexists _, _, _, _.
  split; [apply student_distribution_tally|].
  split; [apply accurate_distribution_tally|].
  rewrite !lookup_tally by (apply student_keys_NoDup || apply category_keys_NoDup).
  set (V := List.filter valid_bmi students).
  pose proof (occurrences_student_same SeverelyWasted V) as Hs.
  pose proof (occurrences_student_same Wasted V) as Hw.
  pose proof (occurrences_student_same Normal V) as Hn.
  pose proof (occurrences_student_overweight V) as Hover.
  cbn [category_key] in Hs, Hw, Hn.
  split; [rewrite Hs by tauto; reflexivity|].
  split; [rewrite Hw by tauto; reflexivity|].
  split; [rewrite Hn by tauto; reflexivity|].
  split; [reflexivity|]. split; [reflexivity|].
  rewrite Hover. reflexivity.
Qed.

(** X19. When every bmi that is present is positive, the super-admin
    distribution of school.py and [_calculate_accurate_bmi_distribution]
    give the same five category counts. *)
Theorem distributions_agree_on_positive (table : list Student) :
  forallb (fun s => implb (bmi_not_null s) (valid_bmi s)) table = true ->
  exists d_system d_accurate,
    school._get_super_admin_dashboard_data__bmi_distribution table = Ok d_system /\
    school._calculate_accurate_bmi_distribution table = Ok d_accurate /\
    forall c, d_system !! category_key c = d_accurate !! category_key c.
Proof.
  intros H. eexists _, _.
  split; [apply system_distribution_tally|].
  split; [apply accurate_distribution_tally|].
  intros c. rewrite !lookup_tally by apply category_keys_NoDup.
  rewrite system_zero_lookup, accurate_zero_lookup by apply category_key_five.
  rewrite (filter_ext_in_len bmi_not_null valid_bmi); [reflexivity|].
  intros s Hs. rewrite forallb_forall in H. specialize (H s Hs).
  destruct (bmi_not_null s) eqn:E; simpl in H.
  - symmetry. exact H.
  - unfold bmi_not_null in E. unfold valid_bmi.
    destruct (bmi s); [discriminate|reflexivity].
Qed.

Lemma distributions_agree_on_positive_witness :
  exists d_system d_accurate,
    school._get_super_admin_dashboard_data__bmi_distribution sample_students
    = Ok d_system /\
    school._calculate_accurate_bmi_distribution sample_students = Ok d_accurate /\
    d_system !! "normal" = d_accurate !! "normal".
Proof.
  destruct (distributions_agree_on_positive sample_students eq_refl)
    as (d1 & d2 & H1 & H2 & H).
  exists d1, d2. split; [exact H1|]. split; [exact H2|]. exact (H Normal).
Defined.

Lemma severe_outside_normal (s : Student) :
  severe s = true -> sql_at_risk s = true.
Proof.
  unfold severe, sql_at_risk. destruct (bmi s) as [b|]; [|discriminate].
  intros H. apply andb_true_iff in H as [_ H].
  apply orb_true_iff in H as [H|H]; apply orb_true_iff.
  - left. apply Qltb_lt. apply Qltb_lt in H.
    eapply Qlt_trans; [exact H|reflexivity].
  - right. eapply Qle_bool_mono; [|exact H]. discriminate.
Qed.

(** X20. Every student that [_get_at_risk_students] returns is at-risk for
    the super-admin dashboard too, so on the same collection the school
    dashboard never reports more at-risk students than the super-admin
    dashboard. *)
Theorem at_risk_school_below_system (students : list Student) :
  exists at_risk,
    school._get_at_risk_students students = Ok at_risk /\
    Forall outside_normal_range at_risk /\
    len at_risk <= super_admin.dashboard__at_risk_students students.
Proof.
  eexists. split; [apply at_risk_students_sorted|]. split.
  - apply List.Forall_forall. intros s Hs.
    apply (Permutation_in _ (py_sort_Permutation _ _ _)) in Hs.
    apply filter_In in Hs as [_ Hs].
    apply sql_at_risk_spec, severe_outside_normal, Hs.
  - rewrite (len_Permutation _ _ (py_sort_Permutation _ _ _)).
    unfold super_admin.dashboard__at_risk_students.
    apply filter_len_le, severe_outside_normal.
Qed.

(** ** The beneficiary flag under repeated writes *)

Lemma edit_flag_pure (s : Student) :
  school.edit_student__set_flag s
  = Ok (school.set_is_beneficiary (Some (needs_feeding_b s)) s).
Proof.
  unfold school.edit_student__set_flag. rewrite needs_feeding_pure. simpl.
  destruct (needs_feeding_b s); reflexivity.
Qed.

Lemma create_flag_pure (s : Student) :
  school.create_student__set_flag s
  = Ok (if needs_feeding_b s then school.set_is_beneficiary (Some true) s else s).
Proof.
  unfold school.create_student__set_flag. rewrite needs_feeding_pure. simpl.
  destruct (needs_feeding_b s); reflexivity.
Qed.

(** X21. The flag update of [edit_student] is idempotent and overrides the
    one of [create_student]: editing an edited record changes nothing,
    editing a created record gives the same record as editing directly, and
    the update of [create_student] changes nothing on an edited record.
    After an edit the flag is the write condition (a bmi that is neither
    null nor zero and lies below 18.5 or at 25 and above) evaluated on the
    stored record. *)
Theorem beneficiary_flag_composition (student : Student) :
  exists edited created,
    school.edit_student__set_flag student = Ok edited /\
    school.create_student__set_flag student = Ok created /\
    school.edit_student__set_flag edited = Ok edited /\
    school.edit_student__set_flag created = Ok edited /\
    school.create_student__set_flag edited = Ok edited /\
    school.needs_feeding edited = Ok (truthy_flag (is_beneficiary edited)).
Proof.
  eexists _, _. split; [apply edit_flag_pure|]. split; [apply create_flag_pure|].
  rewrite !edit_flag_pure, create_flag_pure, needs_feeding_pure.
  destruct student as [i b f sc se c u].
  unfold needs_feeding_b, school.set_is_beneficiary, sql_at_risk. cbn.
  destruct (truthy b && match b with
                        | Some x => Qltb x (37 # 2) || Qle_bool 25 x
                        | None => false
                        end) eqn:E; cbn; rewrite ?E; repeat split; reflexivity.
Qed.

(** ** [_calculate_progress_trends], the regular values *)

(** X22. Whatever the input, the nutritional improvement and the program
    compliance returned by [_calculate_progress_trends] are between 0 and
    100; the data quality is between 0 and 100 as well when the students
    passed in are not more than the students counted in the database. *)
Theorem progress_trends_percentages (count : result Z) (students : list Student) :
  exists r,
    school._calculate_progress_trends count students = Ok r /\
    is_percentage (school.pt_nutritional_improvement r) /\
    is_percentage (school.pt_program_compliance r) /\
    (forall n, count = Ok n -> len students <= n ->
               is_percentage (school.pt_data_quality r)).
Proof.
  assert (is_percentage 0) as H0 by (split; discriminate).
  eexists. split; [apply progress_trends_cases|].
  destruct students as [|s l]; [repeat split; discriminate|].
  destruct count as [n|e]; [|repeat split; discriminate].
  destruct (forallb bmi_not_null (s :: l)); [|repeat split; discriminate].
  unfold progress_of.
  cbn [school.pt_nutritional_improvement school.pt_program_compliance
       school.pt_data_quality].
  split; [apply py_round1_percentage, healthy_share_percentage; discriminate|].
  split.
  - destruct (List.filter sql_at_risk (s :: l)) as [|a ar] eqn:E; [exact H0|].
    apply py_round1_percentage.
    pose proof (percent_percentage (len (List.filter marked (a :: ar)))
                  (len (a :: ar)) (filter_len_bound marked (a :: ar))) as Hp.
    unfold percent in Hp. pose proof (len_pos a ar).
    destruct (len (a :: ar) =? 0) eqn:E0; [apply Z.eqb_eq in E0; lia|exact Hp].
  - intros n' [= <-] Hn.
    destruct (0 <? n) eqn:En; [|exact H0].
    apply py_round1_percentage.
    pose proof (percent_percentage (len (s :: l)) n) as Hp.
    unfold percent in Hp. apply Z.ltb_lt in En.
    destruct (n =? 0) eqn:E0; [apply Z.eqb_eq in E0; lia|].
    apply Hp. pose proof (len_nonneg (s :: l)). lia.
Qed.

Lemma progress_trends_percentages_witness :
  exists r,
    school._calculate_progress_trends (Ok 5) sample_students = Ok r /\
    is_percentage (school.pt_data_quality r).
Proof.
  destruct (progress_trends_percentages (Ok 5) sample_students)
    as (r & Hr & _ & _ & Hq).
  exists r. split; [exact Hr|]. apply (Hq 5 eq_refl). vm_compute. discriminate.
Defined.
